(** * CLIP embedding service (pepe-tg/embedding-service)

    A shallow embedding of [embedding.py], [models.py] and [main.py].

    The service is HTTP plumbing around a third-party encoder.  Everything
    that belongs to torch, open_clip, PIL, the clock and the file system is
    kept abstract (class [Runtime], the callable fields of the service
    object, the [files] of the world); everything the repository itself
    writes (guards, try/except structure, counters, response records) is
    written out.

    Python state is threaded explicitly: a handler is a function from a
    [World] to an outcome and a new [World].  An exception does not roll
    the world back. *)

From Stdlib Require Import String List ZArith Lia Bool.
From Stdlib Require Import Strings.Byte.
From Stdlib Require Import Ascii DecimalString DecimalN.
Import ListNotations.
Open Scope string_scope.
Open Scope Z_scope.

Set Implicit Arguments.

(** ** Python values and exceptions *)

(** A value that is either a [str] or [None]. *)
Definition pystr := option string.

(** [f"{x}"] for such a value. *)
Definition format_pystr (x : pystr) : string :=
  match x with
  | Some s => s
  | None => "None"
  end.

(** [not x] for such a value: [None] and the empty string are falsy. *)
Definition py_not (x : pystr) : bool :=
  match x with
  | None => true
  | Some s => String.eqb s ""
  end.

Inductive exn_class :=
| RuntimeError
| ValueError
| AttributeError
| TypeError
| IndexError
| ValidationError
| LibraryError. (* anything raised inside torch, open_clip, PIL or the OS *)

(** Subclasses of [Exception] that handler bodies can raise. *)
Inductive exn := Exn (cls : exn_class) (msg : string).

(** [str(e)] *)
Definition str (e : exn) : string :=
  match e with Exn _ msg => msg end.

(** fastapi's [HTTPException(status_code=..., detail=...)]. *)
Record HTTPException := mkHTTPException {
  status_code : Z;
  detail : string
}.

Inductive outcome (E A : Type) :=
| Returned (a : A)
| Raised (e : E).
Arguments Returned {E A} a.
Arguments Raised {E A} e.

Definition bytes := list Byte.byte.

(** ** models.py: request schemas *)

Record TextEmbeddingRequest := mkTextEmbeddingRequest {
  text : string;
  prompt_template : string
}.

(** Field constraints of [TextEmbeddingRequest], checked by pydantic before
    the handler runs. *)
Definition valid_TextEmbeddingRequest (r : TextEmbeddingRequest) : bool :=
  (1 <=? String.length (text r))%nat && (String.length (text r) <=? 1000)%nat
  && (String.eqb (prompt_template r) "visual"
      || String.eqb (prompt_template r) "content"
      || String.eqb (prompt_template r) "raw").

(** Fields [text], [path] and [id] of the source. *)
Record BatchItem := mkBatchItem {
  item_text : pystr;
  item_path : pystr;
  item_id : pystr
}.

Record BatchEmbeddingRequest := mkBatchEmbeddingRequest {
  type : string;
  items : list BatchItem
}.

(** Field constraints of [BatchEmbeddingRequest]. *)
Definition valid_BatchEmbeddingRequest (r : BatchEmbeddingRequest) : bool :=
  (String.eqb (type r) "image" || String.eqb (type r) "text")
  && (List.length (items r) <=? 100)%nat.

(** fastapi's [UploadFile]: the declared content type and what
    [await file.read()] gives. *)
Record UploadFile := mkUploadFile {
  content_type : pystr;
  read : outcome exn bytes
}.

(** ** Third-party runtime *)

Class Runtime := {
  float : Type;      (* a floating-point number *)
  tokens : Type;     (* tensor of token ids *)
  image : Type;      (* PIL image *)
  tensor : Type;     (* preprocessed image tensor *)
  datetime : Type;
  (* Image.open(io.BytesIO(b)).convert("RGB") *)
  Image_open_rgb : bytes -> outcome exn image;
  (* row / row.norm(dim=-1, keepdim=True) *)
  unit_norm : list float -> list float;
  (* (t1 - t0) * 1000 on two time.time() readings *)
  elapsed_ms : float -> float -> float;
  isoformat : datetime -> string
}.

Section Service.

Context {RT : Runtime}.

(** The loaded encoder: what [self.model] answers. *)
Record CLIP := mkCLIP {
  clip_encode_text : tokens -> outcome exn (list (list float));
  clip_encode_image : tensor -> outcome exn (list (list float))
}.

(** Fields of [EmbeddingService] ([__init__]). *)
Record EmbeddingService := mkEmbeddingService {
  model : option CLIP;
  (* self.preprocess(image).unsqueeze(0).to(self.device) *)
  preprocess : option (image -> outcome exn tensor);
  (* self.tokenizer(texts).to(self.device) *)
  tokenizer : option (list pystr -> outcome exn tokens);
  device : option string;
  model_name : string;
  pretrained : string;
  embedding_dim : Z
}.

(** Calls that leave the repository's own code, in the order made. *)
Inductive Event :=
| UploadRead                 (* await file.read() *)
| FileOpen (path : pystr)    (* open(path, 'rb') and f.read() *)
| Tokenize
| ModelEncodeText
| ImageDecode
| Preprocess
| ModelEncodeImage.

(** Module globals of [main.py] plus what the process can observe. *)
Record World := mkWorld {
  embedding_service : EmbeddingService;
  request_counter : Z;
  last_request_time : option datetime;
  files : string -> outcome exn bytes;
  trace : list Event
}.

(** ** State and exception monad *)

Definition M (E A : Type) : Type := World -> outcome E A * World.

Definition ret {E A} (a : A) : M E A := fun w => (Returned a, w).

Definition raise {E A} (e : E) : M E A := fun w => (Raised e, w).

Definition bind {E A B} (m : M E A) (k : A -> M E B) : M E B :=
  fun w =>
    match m w with
    | (Returned a, w') => k a w'
    | (Raised e, w') => (Raised e, w')
    end.

(** [try: body except Exception as e: handler]. *)
Definition try_except {E E' A} (body : M E A) (handler : E -> M E' A) : M E' A :=
  fun w =>
    match body w with
    | (Returned a, w') => (Returned a, w')
    | (Raised e, w') => handler e w'
    end.

Notation "x <- m ;; k" := (bind m (fun x => k))
  (at level 61, m at next level, right associativity).
Notation "m ;;; k" := (bind m (fun _ => k))
  (at level 61, right associativity).

(** A call into third-party code: logged, then its outcome. *)
Definition extern {A} (ev : Event) (r : outcome exn A) : M exn A :=
  fun w =>
    (r, mkWorld (embedding_service w) (request_counter w)
                (last_request_time w) (files w) (trace w ++ [ev])%list).

(** Calling a field that may still be [None]. *)
Definition call_field {A B} (ev : Event) (f : option (A -> outcome exn B)) (a : A)
  : M exn B :=
  match f with
  | Some g => extern ev (g a)
  | None => raise (Exn TypeError "'NoneType' object is not callable")
  end.

Definition get_service {E} : M E EmbeddingService :=
  fun w => (Returned (embedding_service w), w).

(** [request_counter += n; last_request_time = datetime.now()] *)
Definition update_metrics {E} (n : Z) (now : datetime) : M E unit :=
  fun w =>
    (Returned tt,
     mkWorld (embedding_service w) (request_counter w + n) (Some now)
             (files w) (trace w)).

(** ** embedding.py *)

Definition is_loaded (self : EmbeddingService) : bool :=
  match model self with
  | Some _ => true
  | None => false
  end.

Definition apply_prompt_template (text : string) (template : string) : string :=
  if String.eqb template "visual" then
    "A digital art card featuring " ++ text
      ++ ", with emphasis on visual style and composition"
  else if String.eqb template "content" then
    "A digital art card depicting " ++ text
      ++ ", focused on the subject matter and themes"
  else
    text.

(** [arr[0]] on the rows of a 2-d array. *)
Definition row0 {A} (rows : list (list A)) : M exn (list A) :=
  match rows with
  | r :: _ => ret r
  | [] => raise (Exn IndexError "index 0 is out of bounds for axis 0 with size 0")
  end.

Definition model_encode_text (self : EmbeddingService) (t : tokens)
  : M exn (list (list float)) :=
  match model self with
  | Some m => extern ModelEncodeText (clip_encode_text m t)
  | None => raise (Exn AttributeError "'NoneType' object has no attribute 'encode_text'")
  end.

Definition model_encode_image (self : EmbeddingService) (t : tensor)
  : M exn (list (list float)) :=
  match model self with
  | Some m => extern ModelEncodeImage (clip_encode_image m t)
  | None => raise (Exn AttributeError "'NoneType' object has no attribute 'encode_image'")
  end.

Definition encode_text (self : EmbeddingService) (text : pystr) : M exn (list float) :=
  if negb (is_loaded self) then
    raise (Exn RuntimeError "Model not loaded")
  else
    try_except
      (toks <- call_field Tokenize (tokenizer self) [text] ;;
       text_features <- model_encode_text self toks ;;
       let text_features := map unit_norm text_features in
       row0 text_features)
      (fun e => raise (Exn RuntimeError ("Text encoding failed: " ++ str e))).

Definition encode_image (self : EmbeddingService) (image_bytes : bytes)
  : M exn (list float) :=
  if negb (is_loaded self) then
    raise (Exn RuntimeError "Model not loaded")
  else
    try_except
      (img <- extern ImageDecode (Image_open_rgb image_bytes) ;;
       image_tensor <- call_field Preprocess (preprocess self) img ;;
       image_features <- model_encode_image self image_tensor ;;
       let image_features := map unit_norm image_features in
       row0 image_features)
      (fun e => raise (Exn RuntimeError ("Image encoding failed: " ++ str e))).

Definition encode_batch_text (self : EmbeddingService) (texts : list pystr)
  : M exn (list (list float)) :=
  if negb (is_loaded self) then
    raise (Exn RuntimeError "Model not loaded")
  else
    try_except
      (toks <- call_field Tokenize (tokenizer self) texts ;;
       text_features <- model_encode_text self toks ;;
       let text_features := map unit_norm text_features in
       ret text_features)
      (fun e => raise (Exn RuntimeError ("Batch text encoding failed: " ++ str e))).

(** ** models.py: response schemas *)

(** Fields [embedding], [model], [processing_time_ms], [processed_text]. *)
Record TextEmbeddingResponse := mkTextEmbeddingResponse {
  text_embedding : list float;
  text_model : string;
  text_processing_time_ms : float;
  processed_text : string
}.

(** Fields [embedding], [model], [processing_time_ms]. *)
Record ImageEmbeddingResponse := mkImageEmbeddingResponse {
  image_embedding : list float;
  image_model : string;
  image_processing_time_ms : float
}.

Record BatchEmbeddingItem := mkBatchEmbeddingItem {
  id : pystr;
  embedding : option (list float);
  success : bool;
  error : pystr
}.

Record BatchEmbeddingResponse := mkBatchEmbeddingResponse {
  embeddings : list BatchEmbeddingItem;
  total : Z;
  successful : Z;
  failed : Z;
  total_time_ms : float
}.

(** Fields [status], [model_loaded], [model_name], [embedding_dim],
    [last_request], [total_requests]. *)
Record HealthResponse := mkHealthResponse {
  status : string;
  model_loaded : bool;
  health_model_name : option string;
  health_embedding_dim : option Z;
  last_request : option string;
  total_requests : Z
}.

(** [Field(..., min_items=512, max_items=512)] on [embedding]: constructing
    the response raises when the list has another length.  (The text of
    pydantic's message is immaterial here.) *)
Definition check_embedding_length (embedding : list float) : M exn unit :=
  if (List.length embedding =? 512)%nat then ret tt
  else raise (Exn ValidationError "embedding: list must have exactly 512 items").

Definition new_TextEmbeddingResponse (embedding : list float) (model : string)
    (processing_time_ms : float) (processed_text : string)
  : M exn TextEmbeddingResponse :=
  check_embedding_length embedding ;;;
  ret (mkTextEmbeddingResponse embedding model processing_time_ms processed_text).

Definition new_ImageEmbeddingResponse (embedding : list float) (model : string)
    (processing_time_ms : float)
  : M exn ImageEmbeddingResponse :=
  check_embedding_length embedding ;;;
  ret (mkImageEmbeddingResponse embedding model processing_time_ms).

(** ** main.py *)

(** What the clock answers during one request: [time.time()] on entry,
    [datetime.now()] at the metrics update, [time.time()] at the end. *)
Record Clock := mkClock {
  start_time : float;
  now : datetime;
  end_time : float
}.

Definition health_check : M HTTPException HealthResponse :=
  fun w =>
    let model_loaded := is_loaded (embedding_service w) in
    (Returned
       (mkHealthResponse
          (if model_loaded then "healthy" else "degraded")
          model_loaded
          (if model_loaded then Some (model_name (embedding_service w)) else None)
          (if model_loaded then Some (embedding_dim (embedding_service w)) else None)
          (match last_request_time w with
           | Some t => Some (isoformat t)
           | None => None
           end)
          (request_counter w)),
     w).

Definition embed_text (clk : Clock) (request : TextEmbeddingRequest)
  : M HTTPException TextEmbeddingResponse :=
  try_except
    (svc <- get_service ;;
     let processed := apply_prompt_template (text request) (prompt_template request) in
     embedding <- encode_text svc (Some processed) ;;
     update_metrics 1 (now clk) ;;;
     let processing_time := elapsed_ms (start_time clk) (end_time clk) in
     new_TextEmbeddingResponse embedding (model_name svc) processing_time processed)
    (fun e =>
       raise (mkHTTPException 500 ("Text embedding generation failed: " ++ str e))).

Definition allowed_types : list string :=
  ["image/png"; "image/jpeg"; "image/jpg"; "image/gif"].

(** [x in l] for [x] a [str] or [None] and [l] a list of [str]. *)
Definition py_in (x : pystr) (l : list string) : bool :=
  match x with
  | Some s => existsb (String.eqb s) l
  | None => false
  end.

Definition embed_image (clk : Clock) (file : UploadFile)
  : M HTTPException ImageEmbeddingResponse :=
  if negb (py_in (content_type file) allowed_types) then
    raise (mkHTTPException 400
             ("Unsupported file type: " ++ format_pystr (content_type file)
              ++ ". Allowed: PNG, JPG, GIF"))
  else
    try_except
      (image_bytes <- extern UploadRead (read file) ;;
       svc <- get_service ;;
       embedding <- encode_image svc image_bytes ;;
       update_metrics 1 (now clk) ;;;
       let processing_time := elapsed_ms (start_time clk) (end_time clk) in
       new_ImageEmbeddingResponse embedding (model_name svc) processing_time)
      (fun e =>
         raise (mkHTTPException 500 ("Image embedding generation failed: " ++ str e))).

(** [with open(path, 'rb') as f: image_bytes = f.read()] *)
Definition open_read (path : string) : M exn bytes :=
  fun w => extern (FileOpen (Some path)) (files w path) w.

Definition lift {E A} (r : outcome E A) : M E A := fun w => (r, w).

Section Batch.

(** [item.get(key, default)] on a batch item. *)
Variable item_get : BatchItem -> string -> pystr -> outcome exn pystr.

(** Locals of the loop: [embeddings], [successful], [failed]. *)
Definition locals : Type := list BatchEmbeddingItem * Z * Z.

(** One iteration of [for item in request.items].  Nothing in the [try]
    body mutates a local before the last call that can raise, so the
    handler starts from the locals the iteration was entered with. *)
Definition batch_step (type : string) (item : BatchItem) (acc : locals) : M exn locals :=
  let '(embeddings, successful, failed) := acc in
  try_except
    (if String.eqb type "text" then
       t <- lift (item_get item "text" (Some "")) ;;
       svc <- get_service ;;
       embedding <- encode_text svc t ;;
       i <- lift (item_get item "id" None) ;;
       ret ((embeddings ++ [mkBatchEmbeddingItem i (Some embedding) true None])%list,
            successful + 1, failed)
     else if String.eqb type "image" then
       path <- lift (item_get item "path" None) ;;
       if py_not path then
         raise (Exn ValueError "Missing 'path' for image batch item")
       else
         (* here [path] is a non-empty [str] *)
         image_bytes <- open_read (format_pystr path) ;;
         svc <- get_service ;;
         embedding <- encode_image svc image_bytes ;;
         i <- lift (item_get item "id" None) ;;
         ret ((embeddings ++ [mkBatchEmbeddingItem i (Some embedding) true None])%list,
              successful + 1, failed)
     else
       ret acc)
    (fun e =>
       i <- lift (item_get item "id" None) ;;
       ret ((embeddings ++ [mkBatchEmbeddingItem i None false (Some (str e))])%list,
            successful, failed + 1)).

Fixpoint batch_loop (type : string) (l : list BatchItem) (acc : locals) : M exn locals :=
  match l with
  | [] => ret acc
  | item :: rest =>
      acc' <- batch_step type item acc ;;
      batch_loop type rest acc'
  end.

Definition embed_batch_with (clk : Clock) (request : BatchEmbeddingRequest)
  : M HTTPException BatchEmbeddingResponse :=
  try_except
    (acc <- batch_loop (type request) (items request) ([], 0, 0) ;;
     let '(embeddings, successful, failed) := acc in
     update_metrics successful (now clk) ;;;
     let total_time := elapsed_ms (start_time clk) (end_time clk) in
     ret (mkBatchEmbeddingResponse embeddings
            (Z.of_nat (List.length (items request)))
            successful failed total_time))
    (fun e => raise (mkHTTPException 500 ("Batch embedding failed: " ++ str e))).

End Batch.

(** [request.items] is a [List[BatchItem]]: each [item] is an instance of
    the pydantic model [BatchItem], whose attributes are the three declared
    fields.  The class has no attribute [get], so every [item.get(...)]
    raises [AttributeError]. *)
Definition BatchItem_get (item : BatchItem) (key : string) (default : pystr)
  : outcome exn pystr :=
  Raised (Exn AttributeError "'BatchItem' object has no attribute 'get'").

(** For comparison: [dict.get] on the item seen as the dict of the fields
    that were given. *)
Definition dict_get (item : BatchItem) (key : string) (default : pystr)
  : outcome exn pystr :=
  let field :=
    if String.eqb key "text" then item_text item
    else if String.eqb key "path" then item_path item
    else if String.eqb key "id" then item_id item
    else None in
  match field with
  | Some v => Returned (Some v)
  | None => Returned default
  end.

(** The endpoint as written. *)
Definition embed_batch := embed_batch_with BatchItem_get.

(** The status a client sees. *)
Definition http_status {A} (r : outcome HTTPException A) : Z :=
  match r with
  | Returned _ => 200
  | Raised e => status_code e
  end.

(** ** Predicates used in the statements *)

(** [w'] differs from [w] at most in the trace. *)
Definition same_globals (w w' : World) : Prop :=
  embedding_service w' = embedding_service w /\
  request_counter w' = request_counter w /\
  last_request_time w' = last_request_time w /\
  files w' = files w.

Definition frames {E A} (m : M E A) : Prop :=
  forall w, same_globals w (snd (m w)).

(** Exactly one of [embedding] and [error] is populated, as [success] says. *)
Definition entry_ok (e : BatchEmbeddingItem) : Prop :=
  (success e = true -> embedding e <> None /\ error e = None) /\
  (success e = false -> embedding e = None /\ error e <> None).

(** The world after one more third-party call. *)
Definition logged (ev : Event) (w : World) : World :=
  mkWorld (embedding_service w) (request_counter w) (last_request_time w)
          (files w) (trace w ++ [ev])%list.

(** The world after [request_counter += n; last_request_time = t]. *)
Definition counted (n : Z) (t : datetime) (w : World) : World :=
  mkWorld (embedding_service w) (request_counter w + n) (Some t)
          (files w) (trace w).

(** The loop's counters agree with the entries collected so far. *)
Definition tallied (acc : list BatchEmbeddingItem * Z * Z) : Prop :=
  let '(embs, s, f) := acc in
  Forall entry_ok embs /\
  s = Z.of_nat (List.length (filter success embs)) /\
  f = Z.of_nat (List.length (filter (fun e => negb (success e)) embs)).

End Service.

(** ** A small runtime to run the handlers on

    Floats are stood in for by integers; the encoder answers one row of 512
    ones per input, the tokenizer refuses [None], the image decoder refuses
    empty input. *)

Module Stub.

#[export] Instance rt : Runtime := {|
  float := Z;
  tokens := list string;
  image := bytes;
  tensor := bytes;
  datetime := Z;
  Image_open_rgb := fun b =>
    match b with
    | [] => Raised (Exn LibraryError "cannot identify image file")
    | _ => Returned b
    end;
  unit_norm := fun v => v;
  elapsed_ms := fun t0 t1 => (t1 - t0) * 1000;
  isoformat := fun _ => "2025-01-01T00:00:00"
|}.

Fixpoint tokenize (texts : list pystr) : outcome exn (list string) :=
  match texts with
  | [] => Returned []
  | None :: _ => Raised (Exn TypeError "expected str, got NoneType")
  | Some s :: rest =>
      match tokenize rest with
      | Returned l => Returned (s :: l)
      | Raised e => Raised e
      end
  end.

Definition clip : CLIP := {|
  clip_encode_text := fun toks => Returned (map (fun _ => repeat 1 512) toks);
  clip_encode_image := fun _ => Returned [repeat 1 512]
|}.

Definition loaded_service : EmbeddingService := {|
  model := Some clip;
  preprocess := Some (fun img => Returned img);
  tokenizer := Some tokenize;
  device := Some "cpu";
  model_name := "ViT-B-32";
  pretrained := "laion2b_s34b_b79k";
  embedding_dim := 512
|}.

(** The fields as [__init__] sets them before [_load_model] runs. *)
Definition unloaded_service : EmbeddingService := {|
  model := None;
  preprocess := None;
  tokenizer := None;
  device := None;
  model_name := "ViT-B-32";
  pretrained := "laion2b_s34b_b79k";
  embedding_dim := 512
|}.

Definition disk (path : string) : outcome exn bytes :=
  if String.eqb path "cards/pepe.png" then Returned [x89; x50; x4e; x47]
  else Raised (Exn LibraryError "[Errno 2] No such file or directory").

Definition fresh (svc : EmbeddingService) : World := {|
  embedding_service := svc;
  request_counter := 0;
  last_request_time := None;
  files := disk;
  trace := []
|}.

(** A loaded service whose model raises on every call. *)
Definition faulty_service : EmbeddingService := {|
  model := Some {| clip_encode_text := fun _ => Raised (Exn LibraryError "CUDA out of memory");
                   clip_encode_image := fun _ => Raised (Exn LibraryError "CUDA out of memory") |};
  preprocess := Some (fun img => Returned img);
  tokenizer := Some tokenize;
  device := Some "cpu";
  model_name := "ViT-B-32";
  pretrained := "laion2b_s34b_b79k";
  embedding_dim := 512
|}.

Definition loaded : World := fresh loaded_service.
Definition unloaded : World := fresh unloaded_service.
Definition faulty : World := fresh faulty_service.

Definition clk : Clock := {| start_time := 10; now := 11; end_time := 12 |}.

Definition text_request : TextEmbeddingRequest :=
  {| text := "pepe"; prompt_template := "visual" |}.

Definition png_upload : UploadFile :=
  {| content_type := Some "image/png"; read := Returned [x89; x50; x4e; x47] |}.

Definition broken_upload : UploadFile :=
  {| content_type := Some "image/gif"; read := Raised (Exn LibraryError "read failed") |}.

Definition pdf_upload : UploadFile :=
  {| content_type := Some "application/pdf"; read := Returned [x25; x50; x44; x46] |}.

Definition one_text : BatchEmbeddingRequest :=
  {| type := "text";
     items := [ {| item_text := Some "pepe"; item_path := None; item_id := Some "a" |} ] |}.

Definition two_images : BatchEmbeddingRequest :=
  {| type := "image";
     items := [ {| item_text := None; item_path := Some "cards/pepe.png"; item_id := Some "a" |};
                {| item_text := None; item_path := None; item_id := Some "b" |} ] |}.

Definition empty_batch : BatchEmbeddingRequest :=
  {| type := "text"; items := [] |}.

Definition two_texts : BatchEmbeddingRequest :=
  {| type := "text";
     items := [ {| item_text := Some "pepe"; item_path := None; item_id := Some "a" |};
                {| item_text := Some "rare"; item_path := None; item_id := None |} ] |}.

End Stub.

(** ** Model loading ([EmbeddingService.__init__], [_load_model],
       [get_embedding_service]) *)

Section Loader.

Context {RT : Runtime}.

(** What torch and open_clip answer while the model is being loaded.  The
    callables are taken with the transfer to the device folded in, as in the
    fields of [EmbeddingService]. *)
Record OpenClip := mkOpenClip {
  (* torch.cuda.is_available() *)
  cuda_is_available : bool;
  (* open_clip.create_model_and_transforms(name, pretrained=.., device=..),
     first and third component *)
  create_model_and_transforms :
    string -> string -> string ->
    outcome exn (CLIP * (image -> outcome exn tensor));
  (* open_clip.get_tokenizer(name) *)
  get_tokenizer : string -> outcome exn (list pystr -> outcome exn tokens);
  (* self.model.eval() *)
  model_eval : CLIP -> outcome exn unit
}.

(** [_load_model]: the fields are assigned one after the other, and an
    exception is re-raised with the assignments made so far kept on the
    object.  (The messages printed on the way are left out.) *)
Definition _load_model (oc : OpenClip) (self : EmbeddingService)
  : outcome exn unit * EmbeddingService :=
  let dev := if cuda_is_available oc then "cuda" else "cpu" in
  let self1 :=
    mkEmbeddingService (model self) (preprocess self) (tokenizer self)
      (Some dev) (model_name self) (pretrained self) (embedding_dim self) in
  match create_model_and_transforms oc (model_name self1) (pretrained self1) dev with
  | Raised e => (Raised e, self1)
  | Returned (m, pre) =>
      let self2 :=
        mkEmbeddingService (Some m) (Some pre) (tokenizer self1)
          (device self1) (model_name self1) (pretrained self1)
          (embedding_dim self1) in
      match get_tokenizer oc (model_name self2) with
      | Raised e => (Raised e, self2)
      | Returned tk =>
          let self3 :=
            mkEmbeddingService (model self2) (preprocess self2) (Some tk)
              (device self2) (model_name self2) (pretrained self2)
              (embedding_dim self2) in
          match model_eval oc m with
          | Raised e => (Raised e, self3)
          | Returned _ => (Returned tt, self3)
          end
      end
  end.

(** [EmbeddingService()]: when [_load_model] raises, so does the
    constructor, and no object is handed out. *)
Definition new_EmbeddingService (oc : OpenClip) : outcome exn EmbeddingService :=
  let self :=
    mkEmbeddingService None None None None "ViT-B-32" "laion2b_s34b_b79k" 512 in
  match _load_model oc self with
  | (Returned _, self') => Returned self'
  | (Raised e, _) => Raised e
  end.

(** [get_embedding_service], threading the module global
    [_embedding_service_instance]. *)
Definition get_embedding_service (oc : OpenClip)
    (_embedding_service_instance : option EmbeddingService)
  : outcome exn EmbeddingService * option EmbeddingService :=
  match _embedding_service_instance with
  | Some inst => (Returned inst, Some inst)
  | None =>
      match new_EmbeddingService oc with
      | Returned inst => (Returned inst, Some inst)
      | Raised e => (Raised e, None)
      end
  end.

(** Calling [get_embedding_service] once per element of [ocs], each call
    seeing what open_clip would answer at that moment; the results of the
    calls, in order, and the global afterwards. *)
Fixpoint get_embedding_service_calls (ocs : list OpenClip)
    (inst : option EmbeddingService)
  : list (outcome exn EmbeddingService) * option EmbeddingService :=
  match ocs with
  | [] => ([], inst)
  | oc :: rest =>
      let '(r, inst1) := get_embedding_service oc inst in
      let '(rs, inst2) := get_embedding_service_calls rest inst1 in
      (r :: rs, inst2)
  end.

(** ** The routes of the app, served one request after another *)

Inductive Request :=
| GetHealth
| PostEmbedText (clk : Clock) (body : TextEmbeddingRequest)
| PostEmbedImage (clk : Clock) (file : UploadFile)
| PostEmbedBatch (clk : Clock) (body : BatchEmbeddingRequest).

Inductive Response :=
| HealthAnswer (r : outcome HTTPException HealthResponse)
| TextAnswer (r : outcome HTTPException TextEmbeddingResponse)
| ImageAnswer (r : outcome HTTPException ImageEmbeddingResponse)
| BatchAnswer (r : outcome HTTPException BatchEmbeddingResponse).

Definition serve (r : Request) (w : World) : Response * World :=
  match r with
  | GetHealth => let '(a, w') := health_check w in (HealthAnswer a, w')
  | PostEmbedText clk body => let '(a, w') := embed_text clk body w in (TextAnswer a, w')
  | PostEmbedImage clk file => let '(a, w') := embed_image clk file w in (ImageAnswer a, w')
  | PostEmbedBatch clk body => let '(a, w') := embed_batch clk body w in (BatchAnswer a, w')
  end.

Fixpoint serve_all (rs : list Request) (w : World) : list Response * World :=
  match rs with
  | [] => ([], w)
  | r :: rest =>
      let '(a, w1) := serve r w in
      let '(answers, w2) := serve_all rest w1 in
      (a :: answers, w2)
  end.

(** [w'] can come after [w]: same service object and files, a counter that
    did not go down, a timestamp that was not cleared, a trace that was only
    appended to. *)
Definition advances (w w' : World) : Prop :=
  embedding_service w' = embedding_service w /\
  files w' = files w /\
  request_counter w <= request_counter w' /\
  (last_request_time w <> None -> last_request_time w' <> None) /\
  exists l, trace w' = (trace w ++ l)%list.

Definition adv {E A} (m : M E A) : Prop :=
  forall w, advances w (snd (m w)).

Definition response_status (a : Response) : Z :=
  match a with
  | HealthAnswer r => http_status r
  | TextAnswer r => http_status r
  | ImageAnswer r => http_status r
  | BatchAnswer r => http_status r
  end.

End Loader.

(** More services to run the handlers on. *)

Module Stub2.

Import Stub.

(** A loaded service whose model answers rows of three numbers. *)
Definition short_service : EmbeddingService := {|
  model := Some {| clip_encode_text := fun _ => Returned [[1; 2; 3]];
                   clip_encode_image := fun _ => Returned [[1; 2; 3]] |};
  preprocess := Some (fun img => Returned img);
  tokenizer := Some Stub.tokenize;
  device := Some "cpu";
  model_name := "ViT-B-32";
  pretrained := "laion2b_s34b_b79k";
  embedding_dim := 512
|}.

Definition short : World := Stub.fresh short_service.

(** open_clip answering normally on a machine without a GPU. *)
Definition open_clip_ok : OpenClip := {|
  cuda_is_available := false;
  create_model_and_transforms := fun _ _ _ =>
    Returned (Stub.clip, fun img => Returned img);
  get_tokenizer := fun _ => Returned Stub.tokenize;
  model_eval := fun _ => Returned tt
|}.

(** open_clip failing to fetch the weights. *)
Definition open_clip_down : OpenClip := {|
  cuda_is_available := false;
  create_model_and_transforms := fun _ _ _ =>
    Raised (Exn LibraryError "Failed to download pretrained weights");
  get_tokenizer := fun _ => Returned Stub.tokenize;
  model_eval := fun _ => Returned tt
|}.

Definition raw_request : TextEmbeddingRequest :=
  {| text := "green frog"; prompt_template := "raw" |}.

Definition session : list Request :=
  [ GetHealth;
    PostEmbedText Stub.clk Stub.text_request;
    PostEmbedImage Stub.clk Stub.pdf_upload;
    PostEmbedImage Stub.clk Stub.png_upload;
    PostEmbedBatch Stub.clk Stub.one_text;
    GetHealth ].

End Stub2.

(** * Chat-history splitter (telegram_docs/design_docs/split_telegram_history.py) *)

Module SplitHistory.

(** Exceptions the script can die of; it never looks at their text. *)
Inductive pyexc :=
| PyAttributeError
| PyTypeError
| PyZeroDivisionError.

Section Defs.

(** JSON numbers with a fractional part or an exponent: Python floats.  All
    the script asks of one is whether it is zero. *)
Variable real : Type.
Variable real_is_zero : real -> bool.

(** What [json.load] gives.  A dict keeps its keys in file order. *)
#[warnings="-register-all"] Inductive json :=
| JNull
| JBool (b : bool)
| JInt (n : Z)
| JFloat (x : real)
| JStr (s : string)
| JList (l : list json)
| JDict (d : list (string * json)).

Definition dict := list (string * json).

(** [d.get(k)], [k in d], [d[k]] *)
Fixpoint lookup (d : dict) (k : string) : option json :=
  match d with
  | [] => None
  | (k', v) :: rest => if String.eqb k' k then Some v else lookup rest k
  end.

(** [d[k] = v]: in place when the key is there, at the end otherwise. *)
Fixpoint dict_set (d : dict) (k : string) (v : json) : dict :=
  match d with
  | [] => [(k, v)]
  | (k', v') :: rest =>
      if String.eqb k' k then (k', v) :: rest else (k', v') :: dict_set rest k v
  end.

(** [bool(v)] *)
Definition truthy (v : json) : bool :=
  match v with
  | JNull => false
  | JBool b => b
  | JInt n => negb (n =? 0)
  | JFloat x => negb (real_is_zero x)
  | JStr s => negb (String.eqb s "")
  | JList l => match l with [] => false | _ => true end
  | JDict d => match d with [] => false | _ => true end
  end.

(** [str.isspace] on one character (code points below 256). *)
Definition py_isspace (c : ascii) : bool :=
  let n := nat_of_ascii c in
  ((9 <=? n) && (n <=? 13) || (28 <=? n) && (n <=? 32)
   || (n =? 133) || (n =? 160))%nat.

Fixpoint drop_space (l : list ascii) : list ascii :=
  match l with
  | [] => []
  | c :: rest => if py_isspace c then drop_space rest else l
  end.

(** [s.strip()] *)
Definition strip (s : string) : string :=
  string_of_list_ascii
    (rev (drop_space (rev (drop_space (list_ascii_of_string s))))).

Definition FIELDS_TO_KEEP : list string := ["from"; "from_id"; "text"; "date"].
Definition MESSAGES_PER_CHUNK : Z := 500.

(** The list [text_parts] built from a list-valued text field. *)
Fixpoint text_parts (value : list json) : list json :=
  match value with
  | [] => []
  | JStr s :: rest => JStr s :: text_parts rest
  | JDict d :: rest =>
      match lookup d "text" with
      | Some t => t :: text_parts rest
      | None => text_parts rest
      end
  | _ :: rest => text_parts rest
  end.

(** ["".join(parts)]: TypeError at the first item that is not a [str]. *)
Fixpoint join (parts : list json) : outcome pyexc string :=
  match parts with
  | [] => Returned ""
  | JStr s :: rest =>
      match join rest with
      | Returned t => Returned (s ++ t)
      | Raised e => Raised e
      end
  | _ :: _ => Raised PyTypeError
  end.

(** [msg.get("type") == "service"] *)
Definition is_service (msg : dict) : bool :=
  match lookup msg "type" with
  | Some (JStr s) => String.eqb s "service"
  | _ => false
  end.

(** Where the loop over [FIELDS_TO_KEEP] stands after one field. *)
Inductive progress :=
| Continue (cleaned : dict)
| ReturnNone.

(** The body of [for field in FIELDS_TO_KEEP]. *)
Definition keep_field (msg : dict) (field : string) (cleaned : dict)
  : outcome pyexc progress :=
  match lookup msg field with
  | None => Returned (Continue cleaned)
  | Some value =>
      if String.eqb field "text" then
        let joined :=
          match value with
          | JList l =>
              match join (text_parts l) with
              | Returned t => Returned (JStr t)
              | Raised e => Raised e
              end
          | _ => Returned value
          end in
        match joined with
        | Raised e => Raised e
        | Returned value =>
            if negb (truthy value) then Returned ReturnNone
            else
              match value with
              | JStr t =>
                  if negb (truthy (JStr (strip t))) then Returned ReturnNone
                  else Returned (Continue (dict_set cleaned field value))
              | _ => Raised PyAttributeError (* no attribute 'strip' *)
              end
        end
      else Returned (Continue (dict_set cleaned field value))
  end.

Fixpoint keep_fields (msg : dict) (fields : list string) (cleaned : dict)
  : outcome pyexc progress :=
  match fields with
  | [] => Returned (Continue cleaned)
  | field :: rest =>
      match keep_field msg field cleaned with
      | Returned (Continue cleaned') => keep_fields msg rest cleaned'
      | Returned ReturnNone => Returned ReturnNone
      | Raised e => Raised e
      end
  end.

(** [clean_message(msg)]: [None] or the cleaned dict.  [msg.get] exists on
    dicts only. *)
Definition clean_message (msg : json) : outcome pyexc (option dict) :=
  match msg with
  | JDict d =>
      if is_service d then Returned None
      else
        match keep_fields d FIELDS_TO_KEEP [] with
        | Raised e => Raised e
        | Returned ReturnNone => Returned None
        | Returned (Continue cleaned) =>
            match lookup cleaned "text" with
            | Some t => if truthy t then Returned (Some cleaned) else Returned None
            | None => Returned None
            end
        end
  | _ => Raised PyAttributeError
  end.

(** [len(v)] *)
Definition py_len (v : json) : outcome pyexc Z :=
  match v with
  | JStr s => Returned (Z.of_nat (String.length s))
  | JList l => Returned (Z.of_nat (List.length l))
  | JDict d => Returned (Z.of_nat (List.length d))
  | _ => Raised PyTypeError
  end.

(** What [for msg in v] goes through, for a [v] that has a length. *)
Definition py_iter (v : json) : list json :=
  match v with
  | JStr s => map (fun c => JStr (String c "")) (list_ascii_of_string s)
  | JList l => l
  | JDict d => map (fun kv => JStr (fst kv)) d
  | _ => []
  end.

(** Locals of the cleaning loop. *)
Record tally := mkTally {
  cleaned_messages : list dict;
  skipped_service : Z;
  skipped_no_text : Z
}.

(** The body of [for i, msg in enumerate(messages)]. *)
Definition clean_step (msg : json) (t : tally) : outcome pyexc tally :=
  match msg with
  | JDict d =>
      if is_service d then
        Returned (mkTally (cleaned_messages t) (skipped_service t + 1)
                          (skipped_no_text t))
      else
        match clean_message msg with
        | Raised e => Raised e
        | Returned (Some cleaned) =>
            if truthy (JDict cleaned) then
              Returned (mkTally (cleaned_messages t ++ [cleaned])
                                (skipped_service t) (skipped_no_text t))
            else
              Returned (mkTally (cleaned_messages t) (skipped_service t)
                                (skipped_no_text t + 1))
        | Returned None =>
            Returned (mkTally (cleaned_messages t) (skipped_service t)
                              (skipped_no_text t + 1))
        end
  | _ => Raised PyAttributeError
  end.

Fixpoint clean_loop (msgs : list json) (t : tally) : outcome pyexc tally :=
  match msgs with
  | [] => Returned t
  | msg :: rest =>
      match clean_step msg t with
      | Returned t' => clean_loop rest t'
      | Raised e => Raised e
      end
  end.

(** [l[a:b]] *)
Definition clamp (len i : Z) : Z :=
  if i <? 0 then Z.max (i + len) 0 else Z.min i len.

Definition py_slice {A} (l : list A) (a b : Z) : list A :=
  let len := Z.of_nat (List.length l) in
  firstn (Z.to_nat (clamp len b - clamp len a)) (skipn (Z.to_nat (clamp len a)) l).

(** [f"{n:04d}"] for [n >= 0] *)
Definition format_04d (n : Z) : string :=
  let digits := NilZero.string_of_uint (N.to_uint (Z.to_N n)) in
  string_of_list_ascii (repeat "0"%char (4 - String.length digits))
    ++ digits.

(** The object dumped into one chunk file. *)
Record chunk_data := mkChunk {
  chat_name : json;
  chat_type : json;
  chat_id : json;
  chunk_number : Z;
  total_chunks : Z;
  messages_in_chunk : Z;
  message_range_start : Z;
  message_range_end : Z;
  messages : list dict
}.

(** What the script does to the file system. *)
Inductive effect :=
| Mkdir (path : string)
| WriteJson (file_name : string) (content : chunk_data).

Definition get_default (d : dict) (k : string) (default : json) : json :=
  match lookup d k with
  | Some v => v
  | None => default
  end.

(** The body of [for i in range(num_chunks)]. *)
Definition write_chunk (data : dict) (cleaned : list dict) (chunk_size num_chunks : Z)
    (i : Z) : effect :=
  let total_cleaned := Z.of_nat (List.length cleaned) in
  let start_idx := i * chunk_size in
  let end_idx := Z.min ((i + 1) * chunk_size) total_cleaned in
  let chunk := py_slice cleaned start_idx end_idx in
  WriteJson ("messages_chunk_" ++ format_04d (i + 1) ++ ".json")
    (mkChunk (get_default data "name" (JStr "Unknown"))
             (get_default data "type" (JStr "unknown"))
             (get_default data "id" JNull)
             (i + 1) num_chunks (Z.of_nat (List.length chunk))
             (start_idx + 1) end_idx chunk).

(** [range(n)] *)
Definition py_range (n : Z) : list Z :=
  map Z.of_nat (seq 0 (Z.to_nat n)).

(** [split_messages(input_file, output_dir, chunk_size)].  [read] is what
    opening and parsing the input file gave.  Creating the directory and
    writing a chunk are taken to succeed; the printed progress and the size
    report at the end are left out, except that the "Reduction" line
    divides by the number of messages.  The result is how the call ended
    and what it did to the file system until then. *)
Definition split_messages (read : outcome pyexc json) (output_dir : string)
    (chunk_size : Z) : outcome pyexc unit * list effect :=
  match read with
  | Raised _ => (Returned tt, [])
  | Returned (JDict data) =>
      let msgs := get_default data "messages" (JList []) in
      match py_len msgs with
      | Raised e => (Raised e, [])
      | Returned total_messages =>
          match clean_loop (py_iter msgs) (mkTally [] 0 0) with
          | Raised e => (Raised e, [Mkdir output_dir])
          | Returned t =>
              let cleaned := cleaned_messages t in
              let total_cleaned := Z.of_nat (List.length cleaned) in
              if total_messages =? 0 then
                (Raised PyZeroDivisionError, [Mkdir output_dir])
              else if chunk_size =? 0 then
                (Raised PyZeroDivisionError, [Mkdir output_dir])
              else
                let num_chunks := (total_cleaned + chunk_size - 1) / chunk_size in
                (Returned tt,
                 Mkdir output_dir
                 :: map (write_chunk data cleaned chunk_size num_chunks)
                        (py_range num_chunks))
          end
      end
  | Returned _ => (Raised PyAttributeError, [])
  end.

(** The chunk objects among the effects, in the order written. *)
Fixpoint written (effs : list effect) : list chunk_data :=
  match effs with
  | [] => []
  | WriteJson _ c :: rest => c :: written rest
  | Mkdir _ :: rest => written rest
  end.

(** The names of the files written, in the order written. *)
Fixpoint file_names (effs : list effect) : list string :=
  match effs with
  | [] => []
  | WriteJson name _ :: rest => name :: file_names rest
  | Mkdir _ :: rest => file_names rest
  end.

(** The cleaned form of a message, when [clean_message] keeps it. *)
Definition kept (msg : json) : list dict :=
  match clean_message msg with
  | Returned (Some c) => [c]
  | _ => []
  end.

(** A cleaned message: a text that is a [str] with something other than
    white space in it. *)
Definition has_text (c : dict) : Prop :=
  exists t, lookup c "text" = Some (JStr t) /\ strip t <> "".

End Defs.

Arguments JNull {real}.
Arguments JBool {real} b.
Arguments JInt {real} n.
Arguments JFloat {real} x.
Arguments JStr {real} s.
Arguments JList {real} l.
Arguments JDict {real} d.
Arguments ReturnNone {real}.
Arguments Mkdir {real} path.

End SplitHistory.

(** A small export to run the splitter on. *)

Module SplitStub.

Import SplitHistory.

Definition is_zero (x : Z) : bool := x =? 0.

Definition hello : json Z :=
  JDict [("id", JInt 1); ("type", JStr "message"); ("date", JStr "2021-03-01T10:00:00");
         ("from", JStr "bob"); ("from_id", JStr "user1"); ("text", JStr "  hello ")].

Definition joined : json Z :=
  JDict [("id", JInt 2); ("type", JStr "message");
         ("text", JList [JStr "see "; JDict [("type", JStr "link"); ("text", JStr "pepe.wtf")]])].

Definition service : json Z :=
  JDict [("id", JInt 3); ("type", JStr "service"); ("text", JStr "pinned")].

Definition blank : json Z :=
  JDict [("id", JInt 4); ("type", JStr "message"); ("text", JStr "   ")].

Definition export : dict Z :=
  [("name", JStr "Fake Rares"); ("type", JStr "public_supergroup"); ("id", JInt 42);
   ("messages", JList [hello; service; joined; blank; hello])].

Definition empty_export : dict Z :=
  [("name", JStr "Fake Rares"); ("messages", JList [])].

End SplitStub.

(** ** Properties *)

Section Properties.

Context {RT : Runtime}.

(** *** Frame: what third-party calls and the encoders leave alone *)

Lemma same_globals_refl w : same_globals w w.
Proof. repeat split. Qed.

Lemma same_globals_trans w1 w2 w3 :
  same_globals w1 w2 -> same_globals w2 w3 -> same_globals w1 w3.
Proof.
  unfold same_globals. intros (a & b & c & d) (a' & b' & c' & d').
  repeat split; congruence.
Qed.

Lemma frames_ret E A (a : A) : frames (@ret _ E A a).
Proof. intro w. apply same_globals_refl. Qed.

Lemma frames_raise E A (e : E) : frames (@raise _ E A e).
Proof. intro w. apply same_globals_refl. Qed.

Lemma frames_lift E A (r : outcome E A) : frames (lift r).
Proof. intro w. apply same_globals_refl. Qed.

Lemma frames_get_service E : frames (@get_service _ E).
Proof. intro w. apply same_globals_refl. Qed.

Lemma frames_extern A ev (r : outcome exn A) : frames (extern ev r).
Proof. intro w. repeat split. Qed.

Lemma frames_bind E A B (m : M E A) (k : A -> M E B) :
  frames m -> (forall a, frames (k a)) -> frames (bind m k).
Proof.
  intros Hm Hk w. unfold bind. specialize (Hm w).
  destruct (m w) as [[a | e] w1]; simpl in *; auto.
  eapply same_globals_trans; [eassumption | apply Hk].
Qed.

Lemma frames_try E E' A (m : M E A) (h : E -> M E' A) :
  frames m -> (forall e, frames (h e)) -> frames (try_except m h).
Proof.
  intros Hm Hh w. unfold try_except. specialize (Hm w).
  destruct (m w) as [[a | e] w1]; simpl in *; auto.
  eapply same_globals_trans; [eassumption | apply Hh].
Qed.

Lemma frames_call_field A B ev (f : option (A -> outcome exn B)) a :
  frames (call_field ev f a).
Proof.
  destruct f; simpl; [apply frames_extern | apply frames_raise].
Qed.

Lemma frames_row0 A (rows : list (list A)) : frames (row0 rows).
Proof. destruct rows; simpl; [apply frames_raise | apply frames_ret]. Qed.

Lemma frames_model_encode_text self t : frames (model_encode_text self t).
Proof.
  unfold model_encode_text. destruct (model self);
    [apply frames_extern | apply frames_raise].
Qed.

Lemma frames_model_encode_image self t : frames (model_encode_image self t).
Proof.
  unfold model_encode_image. destruct (model self);
    [apply frames_extern | apply frames_raise].
Qed.

Lemma frames_open_read path : frames (open_read path).
Proof. intro w. repeat split. Qed.

Create HintDb frames.
#[local] Hint Resolve frames_ret frames_raise frames_lift frames_get_service
  frames_extern frames_call_field frames_row0 frames_model_encode_text
  frames_model_encode_image frames_open_read : frames.

Ltac frames_step :=
  first [ apply frames_bind; [ | intro ]
        | apply frames_try; [ | intro ]
        | solve [auto with frames] ].

Lemma frames_encode_text self text : frames (encode_text self text).
Proof.
  unfold encode_text. destruct (negb (is_loaded self)); repeat frames_step.
Qed.

Lemma frames_encode_image self b : frames (encode_image self b).
Proof.
  unfold encode_image. destruct (negb (is_loaded self)); repeat frames_step.
Qed.

Lemma frames_encode_batch_text self texts : frames (encode_batch_text self texts).
Proof.
  unfold encode_batch_text. destruct (negb (is_loaded self)); repeat frames_step.
Qed.

#[local] Hint Resolve frames_encode_text frames_encode_image
  frames_encode_batch_text : frames.

(** *** Prompt templating *)

(** C3.  [apply_prompt_template(text, "raw")] is [text]; with ["visual"] and
    ["content"] the text is placed between the fixed opening and closing
    words of that template.  The function reads no field of the service and
    no global, so it is a function of its two arguments alone. *)
Theorem apply_prompt_template_templates (text : string) :
  apply_prompt_template text "raw" = text /\
  apply_prompt_template text "visual" =
    "A digital art card featuring " ++ text
      ++ ", with emphasis on visual style and composition" /\
  apply_prompt_template text "content" =
    "A digital art card depicting " ++ text
      ++ ", focused on the subject matter and themes".
Proof. repeat split; reflexivity. Qed.

(** Any tag other than the two named ones is treated as ["raw"]. *)
Lemma apply_prompt_template_other (text template : string) :
  template <> "visual" -> template <> "content" ->
  apply_prompt_template text template = text.
Proof.
  intros Hv Hc. unfold apply_prompt_template.
  apply String.eqb_neq in Hv. apply String.eqb_neq in Hc.
  now rewrite Hv, Hc.
Qed.

(** *** Content-type gate of /embed/image *)

Lemma py_in_allowed_false (ct : pystr) :
  ct <> Some "image/png" -> ct <> Some "image/jpeg" ->
  ct <> Some "image/jpg" -> ct <> Some "image/gif" ->
  py_in ct allowed_types = false.
Proof.
  intros H1 H2 H3 H4. destruct ct as [s |]; [ | reflexivity ].
  simpl. repeat rewrite orb_false_iff. repeat split;
    apply String.eqb_neq; congruence.
Qed.

(** C4.  An upload whose content type is none of image/png, image/jpeg,
    image/jpg, image/gif is answered with HTTP 400, and the world is left as
    it was: nothing is appended to the trace, so the file is not read, no
    image is decoded and the encoder is not called. *)
Theorem embed_image_unsupported_type (clk : Clock) (file : UploadFile) (w : World) :
  content_type file <> Some "image/png" ->
  content_type file <> Some "image/jpeg" ->
  content_type file <> Some "image/jpg" ->
  content_type file <> Some "image/gif" ->
  embed_image clk file w =
    (Raised (mkHTTPException 400
               ("Unsupported file type: " ++ format_pystr (content_type file)
                ++ ". Allowed: PNG, JPG, GIF")),
     w).
Proof.
  intros H1 H2 H3 H4. unfold embed_image.
  rewrite (py_in_allowed_false H1 H2 H3 H4). reflexivity.
Qed.

(** *** Health check *)

(** C10.  [health_check] answers and leaves the whole world (counter,
    timestamp, service object, files, trace) as it found it. *)
Theorem health_check_read_only (w : World) :
  snd (health_check w) = w /\
  exists resp, fst (health_check w) = Returned resp.
Proof. split; [ reflexivity | eexists; reflexivity ]. Qed.

(** C8.  With no model loaded the health check reports "degraded",
    [model_loaded] false and null model name and dimension; with a model
    loaded it reports "healthy", [model_loaded] true and the service's model
    name and dimension. *)
Theorem health_check_status (w : World) :
  (model (embedding_service w) = None ->
   exists resp, fst (health_check w) = Returned resp /\
     status resp = "degraded" /\ model_loaded resp = false /\
     health_model_name resp = None /\ health_embedding_dim resp = None) /\
  (model (embedding_service w) <> None ->
   exists resp, fst (health_check w) = Returned resp /\
     status resp = "healthy" /\ model_loaded resp = true /\
     health_model_name resp = Some (model_name (embedding_service w)) /\
     health_embedding_dim resp = Some (embedding_dim (embedding_service w))).
Proof.
  split; intro H; eexists; (split; [ reflexivity | ]);
    unfold is_loaded; simpl; destruct (model (embedding_service w));
    try congruence; repeat split.
Qed.

(** *** Encoder not loaded *)

Lemma is_loaded_None self : model self = None -> is_loaded self = false.
Proof. unfold is_loaded. now intros ->. Qed.

(** C5.  With [model] unset, [encode_text], [encode_image] and
    [encode_batch_text] raise RuntimeError("Model not loaded") at once, in
    any world and without a single third-party call; /embed/text answers
    HTTP 500 naming that error, and so does /embed/image for an accepted
    upload once its bytes have been read. *)
Theorem not_loaded_fails_fast (clk : Clock) (w : World) :
  model (embedding_service w) = None ->
  (forall text w0, encode_text (embedding_service w) text w0 =
     (Raised (Exn RuntimeError "Model not loaded"), w0)) /\
  (forall image_bytes w0, encode_image (embedding_service w) image_bytes w0 =
     (Raised (Exn RuntimeError "Model not loaded"), w0)) /\
  (forall texts w0, encode_batch_text (embedding_service w) texts w0 =
     (Raised (Exn RuntimeError "Model not loaded"), w0)) /\
  (forall request, embed_text clk request w =
     (Raised (mkHTTPException 500
                "Text embedding generation failed: Model not loaded"), w)) /\
  (forall file data,
     py_in (content_type file) allowed_types = true ->
     read file = Returned data ->
     embed_image clk file w =
       (Raised (mkHTTPException 500
                  "Image embedding generation failed: Model not loaded"),
        logged UploadRead w)).
Proof.
  intro H. pose proof (is_loaded_None _ H) as L.
  repeat split; intros.
  - unfold encode_text. now rewrite L.
  - unfold encode_image. now rewrite L.
  - unfold encode_batch_text. now rewrite L.
  - unfold embed_text, try_except, bind, get_service, encode_text.
    now rewrite L.
  - unfold embed_image. rewrite H0. simpl.
    unfold try_except, bind, extern, get_service, encode_image. rewrite H1.
    simpl. now rewrite L.
Qed.

(** *** The single-item endpoints, case by case *)

Lemma embed_text_cases (clk : Clock) (request : TextEmbeddingRequest) (w : World) :
  let processed := apply_prompt_template (text request) (prompt_template request) in
  match encode_text (embedding_service w) (Some processed) w with
  | (Raised e, w1) =>
      embed_text clk request w =
        (Raised (mkHTTPException 500
                   ("Text embedding generation failed: " ++ str e)), w1)
  | (Returned emb, w1) =>
      if (List.length emb =? 512)%nat then
        embed_text clk request w =
          (Returned (mkTextEmbeddingResponse emb
                       (model_name (embedding_service w))
                       (elapsed_ms (start_time clk) (end_time clk)) processed),
           counted 1 (now clk) w1)
      else
        exists d, embed_text clk request w =
          (Raised (mkHTTPException 500 d), counted 1 (now clk) w1)
  end.
Proof.
  intro processed. unfold embed_text, try_except, bind, get_service.
  fold processed.
  destruct (encode_text (embedding_service w) (Some processed) w)
    as [[emb | e] w1]; [ | reflexivity ].
  unfold update_metrics, new_TextEmbeddingResponse, check_embedding_length, bind.
  destruct (List.length emb =? 512)%nat; simpl; [ reflexivity | ].
  eexists; reflexivity.
Qed.

Lemma embed_image_cases (clk : Clock) (file : UploadFile) (w : World) :
  py_in (content_type file) allowed_types = true ->
  match read file with
  | Raised e =>
      embed_image clk file w =
        (Raised (mkHTTPException 500
                   ("Image embedding generation failed: " ++ str e)),
         logged UploadRead w)
  | Returned data =>
      match encode_image (embedding_service w) data (logged UploadRead w) with
      | (Raised e, w1) =>
          embed_image clk file w =
            (Raised (mkHTTPException 500
                       ("Image embedding generation failed: " ++ str e)), w1)
      | (Returned emb, w1) =>
          if (List.length emb =? 512)%nat then
            embed_image clk file w =
              (Returned (mkImageEmbeddingResponse emb
                           (model_name (embedding_service w))
                           (elapsed_ms (start_time clk) (end_time clk))),
               counted 1 (now clk) w1)
          else
            exists d, embed_image clk file w =
              (Raised (mkHTTPException 500 d), counted 1 (now clk) w1)
      end
  end.
Proof.
  intro Hin. unfold embed_image. rewrite Hin. simpl.
  unfold try_except, bind, extern, get_service.
  destruct (read file) as [data | e]; [ | reflexivity ].
  change (mkWorld (embedding_service w) (request_counter w)
            (last_request_time w) (files w) (trace w ++ [UploadRead])%list)
    with (logged UploadRead w).
  change (embedding_service (logged UploadRead w)) with (embedding_service w).
  destruct (encode_image (embedding_service w) data (logged UploadRead w))
    as [[emb | e] w1]; [ | reflexivity ].
  unfold update_metrics, new_ImageEmbeddingResponse, check_embedding_length, bind.
  destruct (List.length emb =? 512)%nat; simpl; [ reflexivity | ].
  eexists; reflexivity.
Qed.

Lemma embed_image_rejected (clk : Clock) (file : UploadFile) (w : World) :
  py_in (content_type file) allowed_types = false ->
  snd (embed_image clk file w) = w.
Proof. intro H. unfold embed_image. now rewrite H. Qed.

Lemma encode_text_metrics self text w :
  request_counter (snd (encode_text self text w)) = request_counter w /\
  last_request_time (snd (encode_text self text w)) = last_request_time w.
Proof. destruct (frames_encode_text self text w) as (_ & ? & ? & _). auto. Qed.

Lemma encode_image_metrics self data w :
  request_counter (snd (encode_image self data w)) = request_counter w /\
  last_request_time (snd (encode_image self data w)) = last_request_time w.
Proof. destruct (frames_encode_image self data w) as (_ & ? & ? & _). auto. Qed.

(** *** Counters on failure *)

(** C9.  When the encoder call of /embed/text raises, or the file read or the
    encoder call of /embed/image raises, the request is answered with HTTP
    500 and [request_counter] and [last_request_time] are what they were
    (template application cannot raise).  Conversely, a request after which
    either of the two differs is one whose encoder call returned. *)
Theorem failed_request_leaves_metrics (clk : Clock) (w : World) :
  (forall request e w1,
     encode_text (embedding_service w)
       (Some (apply_prompt_template (text request) (prompt_template request))) w
       = (Raised e, w1) ->
     embed_text clk request w =
       (Raised (mkHTTPException 500
                  ("Text embedding generation failed: " ++ str e)), w1) /\
     request_counter w1 = request_counter w /\
     last_request_time w1 = last_request_time w) /\
  (forall file e,
     py_in (content_type file) allowed_types = true ->
     read file = Raised e ->
     embed_image clk file w =
       (Raised (mkHTTPException 500
                  ("Image embedding generation failed: " ++ str e)),
        logged UploadRead w) /\
     request_counter (logged UploadRead w) = request_counter w /\
     last_request_time (logged UploadRead w) = last_request_time w) /\
  (forall file data e w1,
     py_in (content_type file) allowed_types = true ->
     read file = Returned data ->
     encode_image (embedding_service w) data (logged UploadRead w) = (Raised e, w1) ->
     embed_image clk file w =
       (Raised (mkHTTPException 500
                  ("Image embedding generation failed: " ++ str e)), w1) /\
     request_counter w1 = request_counter w /\
     last_request_time w1 = last_request_time w) /\
  (forall request,
     request_counter (snd (embed_text clk request w)) <> request_counter w \/
     last_request_time (snd (embed_text clk request w)) <> last_request_time w ->
     exists emb w1,
       encode_text (embedding_service w)
         (Some (apply_prompt_template (text request) (prompt_template request))) w
         = (Returned emb, w1)) /\
  (forall file,
     request_counter (snd (embed_image clk file w)) <> request_counter w \/
     last_request_time (snd (embed_image clk file w)) <> last_request_time w ->
     exists data emb w1,
       read file = Returned data /\
       encode_image (embedding_service w) data (logged UploadRead w)
         = (Returned emb, w1)).
Proof.
  split; [ | split; [ | split; [ | split ] ] ].
  - intros request e w1 H.
    pose proof (embed_text_cases clk request w) as C. simpl in C.
    pose proof (encode_text_metrics (embedding_service w)
      (Some (apply_prompt_template (text request) (prompt_template request))) w)
      as [F1 F2].
    rewrite H in C, F1, F2. auto.
  - intros file e Hin Hr.
    pose proof (embed_image_cases clk file w Hin) as C. rewrite Hr in C. auto.
  - intros file data e w1 Hin Hr H.
    pose proof (embed_image_cases clk file w Hin) as C. rewrite Hr, H in C.
    pose proof (encode_image_metrics (embedding_service w) data
      (logged UploadRead w)) as [F1 F2].
    rewrite H in F1, F2. auto.
  - intros request Hd.
    pose proof (embed_text_cases clk request w) as C. simpl in C.
    pose proof (encode_text_metrics (embedding_service w)
      (Some (apply_prompt_template (text request) (prompt_template request))) w)
      as [F1 F2].
    destruct (encode_text (embedding_service w)
      (Some (apply_prompt_template (text request) (prompt_template request))) w)
      as [[emb | e] w1]; [ eauto | ].
    rewrite C in Hd. simpl in *. destruct Hd; congruence.
  - intros file Hd.
    destruct (py_in (content_type file) allowed_types) eqn:Hin.
    + pose proof (embed_image_cases clk file w Hin) as C.
      destruct (read file) as [data | e].
      * pose proof (encode_image_metrics (embedding_service w) data
          (logged UploadRead w)) as [F1 F2].
        destruct (encode_image (embedding_service w) data (logged UploadRead w))
          as [[emb | e] w1] eqn:He;
          [ exists data, emb, w1; split; [ reflexivity | exact He ] | ].
        rewrite C in Hd. simpl in *. destruct Hd; congruence.
      * rewrite C in Hd. simpl in Hd. destruct Hd; congruence.
    + rewrite (embed_image_rejected clk file w Hin) in Hd.
      destruct Hd; congruence.
Qed.

(** *** Running the monad backwards *)

Lemma bind_Returned E A B (m : M E A) (k : A -> M E B) w b w' :
  bind m k w = (Returned b, w') ->
  exists a w1, m w = (Returned a, w1) /\ k a w1 = (Returned b, w').
Proof.
  unfold bind. destruct (m w) as [[a | e] w1]; intro H; [ eauto | discriminate ].
Qed.

Lemma try_Returned E E' A (m : M E A) (h : E -> M E' A) w a w' :
  try_except m h w = (Returned a, w') ->
  m w = (Returned a, w') \/
  exists e w1, m w = (Raised e, w1) /\ h e w1 = (Returned a, w').
Proof.
  unfold try_except. destruct (m w) as [[a0 | e] w1]; intro H;
    [ left; inversion H; reflexivity | right; eauto ].
Qed.

Lemma ret_Returned E A (a b : A) w w' :
  @ret _ E A a w = (Returned b, w') -> a = b /\ w = w'.
Proof. unfold ret. intro H. inversion H. auto. Qed.

Lemma filter_negb_length A (p : A -> bool) (l : list A) :
  (List.length (filter p l) + List.length (filter (fun x => negb (p x)) l)
   = List.length l)%nat.
Proof.
  induction l as [| x l IH]; simpl; [ reflexivity | ].
  destruct (p x); simpl; lia.
Qed.

(** *** The batch loop, whatever [item.get] answers *)

Section BatchProperties.

Variable item_get : BatchItem -> string -> pystr -> outcome exn pystr.

Lemma frames_batch_step type item acc : frames (batch_step item_get type item acc).
Proof.
  destruct acc as [[embs s] f]. unfold batch_step.
  apply frames_try; [ | intro; repeat frames_step ].
  destruct (String.eqb type "text"); [ repeat frames_step | ].
  destruct (String.eqb type "image"); [ | auto with frames ].
  apply frames_bind; [ auto with frames | intro path ].
  destruct (py_not path); repeat frames_step.
Qed.

Lemma frames_batch_loop type l : forall acc, frames (batch_loop item_get type l acc).
Proof.
  induction l as [| item rest IH]; intro acc; simpl.
  - apply frames_ret.
  - apply frames_bind; [ apply frames_batch_step | intro; apply IH ].
Qed.

(** An iteration that completes appended one entry, a success counted in
    [successful] or a failure counted in [failed]; or [type] was neither
    "text" nor "image" and nothing happened. *)
Lemma batch_step_returned type item embs s f w acc' w' :
  batch_step item_get type item (embs, s, f) w = (Returned acc', w') ->
  (exists i v, acc' = ((embs ++ [mkBatchEmbeddingItem i (Some v) true None])%list,
                       s + 1, f)) \/
  (exists i msg, acc' = ((embs ++ [mkBatchEmbeddingItem i None false (Some msg)])%list,
                         s, f + 1)) \/
  (type <> "text" /\ type <> "image" /\ acc' = (embs, s, f)).
Proof.
  unfold batch_step. intro H. apply try_Returned in H.
  destruct H as [H | (e & w1 & _ & H)].
  - destruct (String.eqb type "text") eqn:Et.
    + apply bind_Returned in H. destruct H as (t & w1 & _ & H).
      apply bind_Returned in H. destruct H as (svc & w2 & _ & H).
      apply bind_Returned in H. destruct H as (v & w3 & _ & H).
      apply bind_Returned in H. destruct H as (i & w4 & _ & H).
      apply ret_Returned in H. destruct H as [<- _]. left. eauto.
    + destruct (String.eqb type "image") eqn:Ei.
      * apply bind_Returned in H. destruct H as (path & w1 & _ & H).
        destruct (py_not path); [ discriminate | ].
        apply bind_Returned in H. destruct H as (b & w2 & _ & H).
        apply bind_Returned in H. destruct H as (svc & w3 & _ & H).
        apply bind_Returned in H. destruct H as (v & w4 & _ & H).
        apply bind_Returned in H. destruct H as (i & w5 & _ & H).
        apply ret_Returned in H. destruct H as [<- _]. left. eauto.
      * apply ret_Returned in H. destruct H as [<- _]. right; right.
        apply String.eqb_neq in Et. apply String.eqb_neq in Ei. auto.
  - apply bind_Returned in H. destruct H as (i & w2 & _ & H).
    apply ret_Returned in H. destruct H as [<- _]. right; left. eauto.
Qed.

Lemma tallied_step type item acc w acc' w' :
  tallied acc ->
  batch_step item_get type item acc w = (Returned acc', w') ->
  tallied acc'.
Proof.
  destruct acc as [[embs s] f]. intros (Hok & Hs & Hf) H.
  apply batch_step_returned in H.
  destruct H as [(i & v & ->) | [(i & msg & ->) | (_ & _ & ->)]];
    [ | | now repeat split ].
  - repeat split.
    + apply Forall_app. split; [ assumption | ].
      constructor; [ | constructor ].
      split; simpl; intro; [ split; congruence | discriminate ].
    + rewrite filter_app, length_app. simpl. lia.
    + rewrite filter_app, length_app. simpl. lia.
  - repeat split.
    + apply Forall_app. split; [ assumption | ].
      constructor; [ | constructor ].
      split; simpl; intro; [ discriminate | split; congruence ].
    + rewrite filter_app, length_app. simpl. lia.
    + rewrite filter_app, length_app. simpl. lia.
Qed.

Lemma tallied_loop type l : forall acc w acc' w',
  tallied acc ->
  batch_loop item_get type l acc w = (Returned acc', w') ->
  tallied acc'.
Proof.
  induction l as [| item rest IH]; simpl; intros acc w acc' w' T H.
  - apply ret_Returned in H. destruct H as [<- _]. exact T.
  - apply bind_Returned in H. destruct H as (acc1 & w1 & H1 & H2).
    eapply IH; [ | exact H2 ]. eapply tallied_step; eassumption.
Qed.

(** What a batch request that is answered has done. *)
Lemma embed_batch_returned clk request w resp w' :
  embed_batch_with item_get clk request w = (Returned resp, w') ->
  exists embs s f w1,
    batch_loop item_get (type request) (items request) ([], 0, 0) w
      = (Returned (embs, s, f), w1) /\
    w' = counted s (now clk) w1 /\
    resp = mkBatchEmbeddingResponse embs
             (Z.of_nat (List.length (items request))) s f
             (elapsed_ms (start_time clk) (end_time clk)).
Proof.
  unfold embed_batch_with. intro H. apply try_Returned in H.
  destruct H as [H | (e & w1 & _ & H)]; [ | discriminate ].
  apply bind_Returned in H. destruct H as ([[embs s] f] & w1 & H1 & H).
  unfold bind, update_metrics, ret in H. inversion H.
  exists embs, s, f, w1. auto.
Qed.

(** C6.  In a batch response every entry has exactly one of [embedding] and
    [error] populated: an entry with [success] true carries an embedding and
    a null error, an entry with [success] false a null embedding and an
    error message.  This holds whatever [item.get] answers. *)
Theorem batch_entries_exclusive clk request w resp w' :
  embed_batch_with item_get clk request w = (Returned resp, w') ->
  forall e, In e (embeddings resp) ->
    (success e = true -> embedding e <> None /\ error e = None) /\
    (success e = false -> embedding e = None /\ error e <> None).
Proof.
  intro H. apply embed_batch_returned in H.
  destruct H as (embs & s & f & w1 & Hloop & _ & ->). simpl.
  apply tallied_loop in Hloop; [ | repeat split; constructor ].
  destruct Hloop as (Hok & _). intros e He.
  exact (proj1 (Forall_forall entry_ok embs) Hok e He).
Qed.

(** The counts of a batch response are those of its entries. *)
Lemma batch_counts clk request w resp w' :
  embed_batch_with item_get clk request w = (Returned resp, w') ->
  successful resp = Z.of_nat (List.length (filter success (embeddings resp))) /\
  failed resp =
    Z.of_nat (List.length (filter (fun e => negb (success e)) (embeddings resp))) /\
  successful resp + failed resp = Z.of_nat (List.length (embeddings resp)) /\
  total resp = Z.of_nat (List.length (items request)).
Proof.
  intro H. apply embed_batch_returned in H.
  destruct H as (embs & s & f & w1 & Hloop & _ & ->). simpl.
  apply tallied_loop in Hloop; [ | repeat split; constructor ].
  destruct Hloop as (_ & Hs & Hf).
  pose proof (filter_negb_length success embs).
  repeat split; try assumption. lia.
Qed.

Lemma batch_metrics clk request w resp w' :
  embed_batch_with item_get clk request w = (Returned resp, w') ->
  request_counter w' = request_counter w + successful resp /\
  last_request_time w' = Some (now clk).
Proof.
  intro H. apply embed_batch_returned in H.
  destruct H as (embs & s & f & w1 & Hloop & -> & ->). simpl.
  pose proof (frames_batch_loop (type request) (items request) ([], 0, 0) w)
    as (_ & Hc & _).
  rewrite Hloop in Hc. simpl in Hc. rewrite Hc. auto.
Qed.

End BatchProperties.

(** *** Counters on success *)

(** C7 (as the code has it).  A /embed/text or /embed/image request that is
    answered adds exactly one to [request_counter]; a /embed/batch request
    that is answered adds the [successful] count of its response, which is
    the number of entries with [success] true; each of the three sets
    [last_request_time] to the time of that request.  /health reports the
    two values as they stand. *)
Theorem metrics_after_request (clk : Clock) (w : World) :
  (forall request resp w',
     embed_text clk request w = (Returned resp, w') ->
     request_counter w' = request_counter w + 1 /\
     last_request_time w' = Some (now clk)) /\
  (forall file resp w',
     embed_image clk file w = (Returned resp, w') ->
     request_counter w' = request_counter w + 1 /\
     last_request_time w' = Some (now clk)) /\
  (forall item_get request resp w',
     embed_batch_with item_get clk request w = (Returned resp, w') ->
     request_counter w' = request_counter w + successful resp /\
     successful resp = Z.of_nat (List.length (filter success (embeddings resp))) /\
     last_request_time w' = Some (now clk)) /\
  (exists h,
     fst (health_check w) = Returned h /\
     total_requests h = request_counter w /\
     last_request h = option_map isoformat (last_request_time w)).
Proof.
  split; [ | split; [ | split ] ].
  - intros request resp w' H.
    pose proof (embed_text_cases clk request w) as C. simpl in C.
    pose proof (encode_text_metrics (embedding_service w)
      (Some (apply_prompt_template (text request) (prompt_template request))) w)
      as [F1 _].
    destruct (encode_text (embedding_service w)
      (Some (apply_prompt_template (text request) (prompt_template request))) w)
      as [[emb | e] w1]; [ | congruence ].
    destruct (List.length emb =? 512)%nat;
      [ | destruct C as [d C]; congruence ].
    rewrite C in H. inversion H. simpl in *. rewrite F1. auto.
  - intros file resp w' H.
    destruct (py_in (content_type file) allowed_types) eqn:Hin.
    + pose proof (embed_image_cases clk file w Hin) as C.
      destruct (read file) as [data | e]; [ | congruence ].
      pose proof (encode_image_metrics (embedding_service w) data
        (logged UploadRead w)) as [F1 _].
      destruct (encode_image (embedding_service w) data (logged UploadRead w))
        as [[emb | e] w1]; [ | congruence ].
      destruct (List.length emb =? 512)%nat;
        [ | destruct C as [d C]; congruence ].
      rewrite C in H. inversion H. simpl in *. rewrite F1. auto.
    + unfold embed_image in H. rewrite Hin in H. discriminate.
  - intros item_get request resp w' H.
    destruct (batch_metrics _ _ _ _ H) as [Hc Ht].
    destruct (batch_counts _ _ _ _ H) as (Hs & _).
    auto.
  - eexists. split; [ reflexivity | ]. simpl.
    destruct (last_request_time w); auto.
Qed.

(** *** The batch endpoint under the two readings of [item.get] *)

Lemma try_except_total E E' A (m : M E A) (h : E -> M E' A) :
  (forall e w1, exists a w', h e w1 = (Returned a, w')) ->
  forall w, exists a w', try_except m h w = (Returned a, w').
Proof.
  intros Hh w. unfold try_except.
  destruct (m w) as [[a | e] w1]; [ eauto | apply Hh ].
Qed.

Lemma dict_get_returns item key default :
  exists v, dict_get item key default = Returned v.
Proof.
  unfold dict_get.
  destruct (if String.eqb key "text" then item_text item
            else if String.eqb key "path" then item_path item
            else if String.eqb key "id" then item_id item else None); eauto.
Qed.

Lemma batch_step_dict_returns type item acc w :
  exists acc' w', batch_step dict_get type item acc w = (Returned acc', w').
Proof.
  destruct acc as [[embs s] f]. unfold batch_step.
  apply try_except_total. intros e w1.
  destruct (dict_get_returns item "id" None) as [v Hv].
  unfold bind, lift. rewrite Hv. unfold ret. eauto.
Qed.

Lemma batch_loop_dict type l :
  type = "text" \/ type = "image" ->
  forall embs s f w,
  exists embs' s' f' w',
    batch_loop dict_get type l (embs, s, f) w = (Returned (embs', s', f'), w') /\
    List.length embs' = (List.length embs + List.length l)%nat.
Proof.
  intro Hty. induction l as [| item rest IH]; intros embs s f w;
    cbn [batch_loop List.length].
  - exists embs, s, f, w. split; [ reflexivity | lia ].
  - destruct (batch_step_dict_returns type item (embs, s, f) w)
      as ([[embs1 s1] f1] & w1 & H1).
    destruct (IH embs1 s1 f1 w1) as (embs' & s' & f' & w' & H2 & Hlen).
    exists embs', s', f', w'. unfold bind. rewrite H1. split; [ exact H2 | ].
    apply batch_step_returned in H1.
    destruct H1 as [(i & v & E) | [(i & msg & E) | (N1 & N2 & _)]].
    + inversion E; subst. rewrite length_app in Hlen. simpl in Hlen. lia.
    + inversion E; subst. rewrite length_app in Hlen. simpl in Hlen. lia.
    + destruct Hty; contradiction.
Qed.

(** Were the items dicts, the endpoint would answer every well-formed
    request, with one entry per item and counts that add up. *)
Lemma embed_batch_dict_get_total (clk : Clock) (request : BatchEmbeddingRequest)
    (w : World) :
  valid_BatchEmbeddingRequest request = true ->
  exists resp w',
    embed_batch_with dict_get clk request w = (Returned resp, w') /\
    List.length (embeddings resp) = List.length (items request) /\
    successful resp + failed resp = Z.of_nat (List.length (items request)) /\
    total resp = Z.of_nat (List.length (items request)).
Proof.
  intro V. unfold valid_BatchEmbeddingRequest in V.
  apply andb_true_iff in V. destruct V as [Vt _].
  apply orb_true_iff in Vt.
  assert (Hty : type request = "text" \/ type request = "image").
  { destruct Vt as [Vt | Vt]; apply String.eqb_eq in Vt; auto. }
  destruct (batch_loop_dict (items request) Hty [] 0 0 w)
    as (embs & s & f & w1 & Hloop & Hlen).
  simpl in Hlen.
  assert (Hrun : embed_batch_with dict_get clk request w =
    (Returned (mkBatchEmbeddingResponse embs
                 (Z.of_nat (List.length (items request))) s f
                 (elapsed_ms (start_time clk) (end_time clk))),
     counted s (now clk) w1)).
  { unfold embed_batch_with, try_except, bind. rewrite Hloop. reflexivity. }
  do 2 eexists. split; [ exact Hrun | ].
  destruct (batch_counts _ _ _ _ Hrun) as (_ & _ & Hsum & Htot).
  simpl in *. repeat split; [ assumption | lia ].
Qed.

(** X15.  As written, with items that are [BatchItem] objects, the first item
    already ends the request: [item.get] raises in the [try] body and again
    in the handler, and the outer handler turns that into HTTP 500. *)
Lemma embed_batch_nonempty (clk : Clock) (request : BatchEmbeddingRequest)
    (w : World) :
  valid_BatchEmbeddingRequest request = true ->
  items request <> [] ->
  embed_batch clk request w =
    (Raised (mkHTTPException 500
               "Batch embedding failed: 'BatchItem' object has no attribute 'get'"),
     w).
Proof.
  intros V Hne. unfold valid_BatchEmbeddingRequest in V.
  apply andb_true_iff in V. destruct V as [Vt _].
  destruct request as [ty its]. simpl in *.
  destruct its as [| item rest]; [ contradiction | ].
  unfold embed_batch, embed_batch_with, try_except, bind. simpl.
  unfold batch_step, try_except, bind, lift, BatchItem_get. simpl.
  destruct (String.eqb ty "text"); [ reflexivity | ].
  destruct (String.eqb ty "image"); [ reflexivity | discriminate ].
Qed.

(** *** Shape of a returned embedding *)

(** X2.  The vector [encode_text] returns is the normalised first row of what
    the model answered for the tokenized text. *)
Lemma encode_text_returned self text w emb w' :
  encode_text self text w = (Returned emb, w') ->
  exists m tk toks raw rows,
    model self = Some m /\ tokenizer self = Some tk /\
    tk [text] = Returned toks /\
    clip_encode_text m toks = Returned (raw :: rows) /\
    emb = unit_norm raw.
Proof.
  unfold encode_text, is_loaded, model_encode_text.
  destruct (model self) as [m |]; simpl; [ | discriminate ].
  intro H. apply try_Returned in H.
  destruct H as [H | (e & w1 & _ & H)]; [ | discriminate ].
  apply bind_Returned in H. destruct H as (toks & w1 & H1 & H).
  apply bind_Returned in H. destruct H as (rows & w2 & H2 & H).
  unfold call_field in H1. destruct (tokenizer self) as [tk |]; [ | discriminate ].
  unfold extern in H1, H2. inversion H1. inversion H2.
  destruct rows as [| raw rows]; simpl in H; [ discriminate | ].
  apply ret_Returned in H. destruct H as [<- _].
  exists m, tk, toks, raw, rows. repeat split; assumption.
Qed.

(** A /embed/text or /embed/image response carries exactly 512 numbers:
    the response schema refuses any other length. *)
Lemma embed_response_length (clk : Clock) (w : World) :
  (forall request resp w',
     embed_text clk request w = (Returned resp, w') ->
     List.length (text_embedding resp) = 512%nat) /\
  (forall file resp w',
     embed_image clk file w = (Returned resp, w') ->
     List.length (image_embedding resp) = 512%nat).
Proof.
  split.
  - intros request resp w' H.
    pose proof (embed_text_cases clk request w) as C. simpl in C.
    destruct (encode_text (embedding_service w)
      (Some (apply_prompt_template (text request) (prompt_template request))) w)
      as [[emb | e] w1]; [ | congruence ].
    destruct (List.length emb =? 512)%nat eqn:L;
      [ | destruct C as [d C]; congruence ].
    rewrite C in H. inversion H. simpl. now apply Nat.eqb_eq.
  - intros file resp w' H.
    destruct (py_in (content_type file) allowed_types) eqn:Hin.
    + pose proof (embed_image_cases clk file w Hin) as C.
      destruct (read file) as [data | e]; [ | congruence ].
      destruct (encode_image (embedding_service w) data (logged UploadRead w))
        as [[emb | e] w1]; [ | congruence ].
      destruct (List.length emb =? 512)%nat eqn:L;
        [ | destruct C as [d C]; congruence ].
      rewrite C in H. inversion H. simpl. now apply Nat.eqb_eq.
    + unfold embed_image in H. rewrite Hin in H. discriminate.
Qed.

(** *** More on the encoders *)

Lemma bind_Raised E A B (m : M E A) (k : A -> M E B) w e w' :
  bind m k w = (Raised e, w') ->
  m w = (Raised e, w') \/
  exists a w1, m w = (Returned a, w1) /\ k a w1 = (Raised e, w').
Proof.
  unfold bind. destruct (m w) as [[a | e0] w1]; intro H;
    [ right; eauto | left; inversion H; reflexivity ].
Qed.

Lemma try_Raised E E' A (m : M E A) (h : E -> M E' A) w e' w' :
  try_except m h w = (Raised e', w') ->
  exists e w1, m w = (Raised e, w1) /\ h e w1 = (Raised e', w').
Proof.
  unfold try_except. destruct (m w) as [[a | e] w1]; intro H;
    [ discriminate | eauto ].
Qed.


(** X3.  The vector [encode_image] returns is the normalised first row of what
    the model answered for the decoded and preprocessed image, and the three
    stages were called once each, in that order. *)
Theorem encode_image_returned self image_bytes w emb w' :
  encode_image self image_bytes w = (Returned emb, w') ->
  exists m pre img t raw rows,
    model self = Some m /\ preprocess self = Some pre /\
    Image_open_rgb image_bytes = Returned img /\
    pre img = Returned t /\
    clip_encode_image m t = Returned (raw :: rows) /\
    emb = unit_norm raw /\
    w' = logged ModelEncodeImage (logged Preprocess (logged ImageDecode w)).
Proof.
  unfold encode_image, is_loaded, model_encode_image.
  destruct (model self) as [m |]; simpl; [ | discriminate ].
  intro H. apply try_Returned in H.
  destruct H as [H | (e & w1 & _ & H)]; [ | discriminate ].
  apply bind_Returned in H. destruct H as (img & w1 & H1 & H).
  apply bind_Returned in H. destruct H as (t & w2 & H2 & H).
  apply bind_Returned in H. destruct H as (rows & w3 & H3 & H).
  unfold call_field in H2. destruct (preprocess self) as [pre |]; [ | discriminate ].
  unfold extern in H1, H2, H3. inversion H1. inversion H2. inversion H3.
  subst. clear H1 H2 H3.
  destruct rows as [| raw rows]; simpl in H; [ discriminate | ].
  apply ret_Returned in H. destruct H as [<- <-].
  exists m, pre, img, t, raw, rows. repeat split; assumption.
Qed.

(** X4.  Third-party calls of [encode_text] come in pipeline order: the trace
    grows by a prefix of tokenizer, model; the model is called only after
    the tokenizer answered, and a vector is returned only after both
    calls. *)
Theorem encode_text_call_order self text w :
  let r := encode_text self text w in
  exists n,
    trace (snd r) = (trace w ++ firstn n [Tokenize; ModelEncodeText])%list /\
    (forall emb, fst r = Returned emb -> n = 2%nat) /\
    ((2 <= n)%nat ->
     exists tk toks, tokenizer self = Some tk /\ tk [text] = Returned toks).
Proof.
  unfold encode_text, is_loaded, model_encode_text.
  destruct (model self) as [m |]; simpl.
  2:{ exists 0%nat. simpl. rewrite app_nil_r.
      repeat split; [ discriminate | lia ]. }
  unfold try_except, bind, call_field.
  destruct (tokenizer self) as [tk |]; simpl.
  2:{ exists 0%nat. simpl. rewrite app_nil_r.
      repeat split; [ discriminate | lia ]. }
  destruct (tk [text]) as [toks | e] eqn:Etk; simpl.
  2:{ exists 1%nat. simpl. repeat split; [ discriminate | lia ]. }
  exists 2%nat. simpl. rewrite <- app_assoc. simpl.
  destruct (clip_encode_text m toks) as [[| raw rows] | e]; simpl;
    repeat split; intros; try reflexivity; exists tk, toks; auto.
Qed.

(** X5.  The same for [encode_image]: decoder, preprocessing, model. *)
Theorem encode_image_call_order self image_bytes w :
  let r := encode_image self image_bytes w in
  exists n,
    trace (snd r) =
      (trace w ++ firstn n [ImageDecode; Preprocess; ModelEncodeImage])%list /\
    (forall emb, fst r = Returned emb -> n = 3%nat) /\
    ((2 <= n)%nat -> exists img, Image_open_rgb image_bytes = Returned img) /\
    ((3 <= n)%nat ->
     exists pre img t, preprocess self = Some pre /\
       Image_open_rgb image_bytes = Returned img /\ pre img = Returned t).
Proof.
  unfold encode_image, is_loaded, model_encode_image.
  destruct (model self) as [m |]; simpl.
  2:{ exists 0%nat. simpl. rewrite app_nil_r.
      repeat split; [ discriminate | lia | lia ]. }
  unfold try_except, bind, call_field, extern.
  destruct (Image_open_rgb image_bytes) as [img | e]; simpl.
  2:{ exists 1%nat. simpl. repeat split; [ discriminate | lia | lia ]. }
  destruct (preprocess self) as [pre |]; simpl.
  2:{ exists 1%nat. simpl. repeat split; [ discriminate | lia | lia ]. }
  destruct (pre img) as [t | e] eqn:Epre; simpl.
  2:{ exists 2%nat. simpl. rewrite <- app_assoc. simpl.
      repeat split; [ discriminate | eauto | lia ]. }
  exists 3%nat. simpl. repeat rewrite <- app_assoc. simpl.
  destruct (clip_encode_image m t) as [[| raw rows] | e]; simpl;
    repeat split; intros; try reflexivity; eauto;
    exists pre, img, t; auto.
Qed.

(** X6.  [encode_text] agrees with [encode_batch_text] on a batch of one: one
    returns a vector exactly when the other returns a list headed by that
    vector, with the same calls made. *)
Theorem encode_text_is_batch_of_one self text w :
  (forall emb w',
     encode_text self text w = (Returned emb, w') ->
     exists rest, encode_batch_text self [text] w = (Returned (emb :: rest), w')) /\
  (forall emb rest w',
     encode_batch_text self [text] w = (Returned (emb :: rest), w') ->
     encode_text self text w = (Returned emb, w')) /\
  (forall w',
     encode_batch_text self [text] w = (Returned [], w') ->
     exists e, encode_text self text w = (Raised e, w')).
Proof.
  unfold encode_text, encode_batch_text, is_loaded, model_encode_text.
  destruct (model self) as [m |]; simpl;
    [ | repeat split; intros; discriminate ].
  unfold try_except, bind, call_field.
  destruct (tokenizer self) as [tk |]; simpl;
    [ | repeat split; intros; discriminate ].
  unfold extern. destruct (tk [text]) as [toks | e]; simpl;
    [ | repeat split; intros; discriminate ].
  destruct (clip_encode_text m toks) as [[| raw rows] | e]; simpl;
    repeat split; intros; try discriminate;
    match goal with
    | H : (_, _) = (_, _) |- _ => inversion H; subst
    end;
    first [ reflexivity | eexists; reflexivity ].
Qed.

(** *** What no handler does: the [advances] relation *)

Ltac advances_by l :=
  unfold advances; simpl;
  split; [ reflexivity
  | split; [ reflexivity
  | split; [ lia
  | split; [ first [ tauto | discriminate ]
  | exists l; rewrite ?app_nil_r; reflexivity ] ] ] ].

Lemma advances_refl w : advances w w.
Proof. advances_by (@nil Event). Qed.

Lemma advances_trans w1 w2 w3 :
  advances w1 w2 -> advances w2 w3 -> advances w1 w3.
Proof.
  intros (a & b & c & d & l & e) (a' & b' & c' & d' & l' & e').
  repeat split; try congruence; try lia; auto.
  exists (l ++ l')%list. rewrite e', e. now rewrite app_assoc.
Qed.

Lemma adv_ret E A (a : A) : adv (@ret _ E A a).
Proof. intro w. apply advances_refl. Qed.

Lemma adv_raise E A (e : E) : adv (@raise _ E A e).
Proof. intro w. apply advances_refl. Qed.

Lemma adv_lift E A (r : outcome E A) : adv (lift r).
Proof. intro w. apply advances_refl. Qed.

Lemma adv_get_service E : adv (@get_service _ E).
Proof. intro w. apply advances_refl. Qed.

Lemma adv_extern A ev (r : outcome exn A) : adv (extern ev r).
Proof.
  intro w. advances_by [ev].
Qed.

Lemma adv_open_read path : adv (open_read path).
Proof.
  intro w. advances_by [FileOpen (Some path)].
Qed.

Lemma adv_update_metrics E n t : 0 <= n -> adv (@update_metrics _ E n t).
Proof.
  intros Hn w. advances_by (@nil Event).
Qed.

(** Sequencing, with a fact [P] known of what the first part returns. *)
Lemma adv_bind_post E A B (P : A -> Prop) (m : M E A) (k : A -> M E B) :
  adv m ->
  (forall w a w1, m w = (Returned a, w1) -> P a) ->
  (forall a, P a -> adv (k a)) ->
  adv (bind m k).
Proof.
  intros Hm HP Hk w. unfold bind. specialize (Hm w). specialize (HP w).
  destruct (m w) as [[a | e] w1]; simpl in *; auto.
  eapply advances_trans; [ eassumption | ]. apply Hk. eapply HP. reflexivity.
Qed.

Lemma adv_bind E A B (m : M E A) (k : A -> M E B) :
  adv m -> (forall a, adv (k a)) -> adv (bind m k).
Proof.
  intros Hm Hk. apply adv_bind_post with (P := fun _ => True); auto.
Qed.

Lemma adv_try E E' A (m : M E A) (h : E -> M E' A) :
  adv m -> (forall e, adv (h e)) -> adv (try_except m h).
Proof.
  intros Hm Hh w. unfold try_except. specialize (Hm w).
  destruct (m w) as [[a | e] w1]; simpl in *; auto.
  eapply advances_trans; [ eassumption | apply Hh ].
Qed.

Lemma adv_call_field A B ev (f : option (A -> outcome exn B)) a :
  adv (call_field ev f a).
Proof. destruct f; simpl; [ apply adv_extern | apply adv_raise ]. Qed.

Lemma adv_row0 A (rows : list (list A)) : adv (row0 rows).
Proof. destruct rows; simpl; [ apply adv_raise | apply adv_ret ]. Qed.

Lemma adv_model_encode_text self t : adv (model_encode_text self t).
Proof.
  unfold model_encode_text. destruct (model self);
    [ apply adv_extern | apply adv_raise ].
Qed.

Lemma adv_model_encode_image self t : adv (model_encode_image self t).
Proof.
  unfold model_encode_image. destruct (model self);
    [ apply adv_extern | apply adv_raise ].
Qed.

Lemma adv_check_embedding_length emb : adv (check_embedding_length emb).
Proof.
  unfold check_embedding_length.
  destruct (List.length emb =? 512)%nat; [ apply adv_ret | apply adv_raise ].
Qed.

Create HintDb adv.
#[local] Hint Resolve adv_ret adv_raise adv_lift adv_get_service adv_extern
  adv_open_read adv_call_field adv_row0 adv_model_encode_text
  adv_model_encode_image adv_check_embedding_length : adv.

Ltac adv_step :=
  first [ apply adv_bind; [ | intro ]
        | apply adv_try; [ | intro ]
        | apply adv_update_metrics; lia
        | solve [auto with adv] ].

Lemma adv_encode_text self text : adv (encode_text self text).
Proof.
  unfold encode_text. destruct (negb (is_loaded self)); repeat adv_step.
Qed.

Lemma adv_encode_image self b : adv (encode_image self b).
Proof.
  unfold encode_image. destruct (negb (is_loaded self)); repeat adv_step.
Qed.

#[local] Hint Resolve adv_encode_text adv_encode_image : adv.

Lemma adv_embed_text clk request : adv (embed_text clk request).
Proof.
  unfold embed_text, new_TextEmbeddingResponse. repeat adv_step.
Qed.

Lemma adv_embed_image clk file : adv (embed_image clk file).
Proof.
  unfold embed_image, new_ImageEmbeddingResponse.
  destruct (negb (py_in (content_type file) allowed_types)); repeat adv_step.
Qed.

Lemma adv_health_check : adv health_check.
Proof. intro w. apply advances_refl. Qed.

Lemma adv_batch_step item_get type item acc :
  adv (batch_step item_get type item acc).
Proof.
  destruct acc as [[embs s] f]. unfold batch_step.
  apply adv_try; [ | intro; repeat adv_step ].
  destruct (String.eqb type "text"); [ repeat adv_step | ].
  destruct (String.eqb type "image"); [ | auto with adv ].
  apply adv_bind; [ auto with adv | intro path ].
  destruct (py_not path); repeat adv_step.
Qed.

Lemma adv_batch_loop item_get type l :
  forall acc, adv (batch_loop item_get type l acc).
Proof.
  induction l as [| item rest IH]; intro acc; simpl.
  - apply adv_ret.
  - apply adv_bind; [ apply adv_batch_step | intro; apply IH ].
Qed.

Lemma adv_embed_batch_with item_get clk request :
  adv (embed_batch_with item_get clk request).
Proof.
  unfold embed_batch_with. apply adv_try; [ | intro; apply adv_raise ].
  apply adv_bind_post with (P := tallied).
  - apply adv_batch_loop.
  - intros w a w1 H. eapply tallied_loop; [ | exact H ].
    repeat split; constructor.
  - intros [[embs s] f] (_ & Hs & _). repeat adv_step.
Qed.

(** X7.  Every route leaves the service object and the files alone, never lowers
    [request_counter], never clears [last_request_time], and only appends to
    the trace of third-party calls. *)
Theorem serve_advances (r : Request) (w : World) :
  advances w (snd (serve r w)).
Proof.
  destruct r as [| clk body | clk file | clk body]; unfold serve.
  - pose proof (adv_health_check w) as H.
    destruct (health_check w); exact H.
  - pose proof (adv_embed_text clk body w) as H.
    destruct (embed_text clk body w); exact H.
  - pose proof (adv_embed_image clk file w) as H.
    destruct (embed_image clk file w); exact H.
  - pose proof (adv_embed_batch_with BatchItem_get clk body w) as H.
    unfold embed_batch. destruct (embed_batch_with BatchItem_get clk body w);
      exact H.
Qed.

Lemma serve_adv (r : Request) (w : World) : advances w (snd (serve r w)).
Proof.
  destruct r as [| clk body | clk file | clk body]; unfold serve.
  - pose proof (adv_health_check w) as H.
    destruct (health_check w); exact H.
  - pose proof (adv_embed_text clk body w) as H.
    destruct (embed_text clk body w); exact H.
  - pose proof (adv_embed_image clk file w) as H.
    destruct (embed_image clk file w); exact H.
  - pose proof (adv_embed_batch_with BatchItem_get clk body w) as H.
    unfold embed_batch. destruct (embed_batch_with BatchItem_get clk body w);
      exact H.
Qed.

(** X8.  Over any run of requests served one after another: one answer per
    request, in order, and the world at the end still [advances] from the
    world at the start. *)
Theorem serve_all_advances (rs : list Request) : forall w,
  List.length (fst (serve_all rs w)) = List.length rs /\
  advances w (snd (serve_all rs w)).
Proof.
  induction rs as [| r rest IH]; intro w; simpl.
  - split; [ reflexivity | apply advances_refl ].
  - pose proof (serve_adv r w) as H1.
    destruct (serve r w) as [a w1]. simpl in H1.
    destruct (IH w1) as [L H2].
    destruct (serve_all rest w1) as [answers w2]. simpl in *.
    split; [ now rewrite L | ].
    eapply advances_trans; eassumption.
Qed.

(** *** Status codes and answers of the routes *)


Lemma encode_text_loaded self text w emb w' :
  encode_text self text w = (Returned emb, w') -> is_loaded self = true.
Proof.
  unfold encode_text. destruct (is_loaded self); [ reflexivity | discriminate ].
Qed.

Lemma encode_text_service self text w :
  embedding_service (snd (encode_text self text w)) = embedding_service w.
Proof. destruct (frames_encode_text self text w) as (? & _). assumption. Qed.

(** X10.  An answered /embed/text carries the templated text (the request's own
    text when the template is "raw"), the service's model name, and the
    vector [encode_text] returned for the templated text; its metrics update
    follows the encoder's calls. *)
Theorem embed_text_response_fields clk body w resp w' :
  embed_text clk body w = (Returned resp, w') ->
  processed_text resp = apply_prompt_template (text body) (prompt_template body) /\
  (prompt_template body = "raw" -> processed_text resp = text body) /\
  text_model resp = model_name (embedding_service w) /\
  text_processing_time_ms resp = elapsed_ms (start_time clk) (end_time clk) /\
  exists w1,
    encode_text (embedding_service w) (Some (processed_text resp)) w
      = (Returned (text_embedding resp), w1) /\
    w' = counted 1 (now clk) w1.
Proof.
  intro H. pose proof (embed_text_cases clk body w) as C. simpl in C.
  destruct (encode_text (embedding_service w)
    (Some (apply_prompt_template (text body) (prompt_template body))) w)
    as [[emb | e] w1] eqn:He; [ | congruence ].
  destruct (List.length emb =? 512)%nat;
    [ | destruct C as [d C]; congruence ].
  rewrite C in H. inversion H. subst. simpl.
  repeat split; try reflexivity.
  - intros ->. reflexivity.
  - exists w1. split; [ exact He | reflexivity ].
Qed.

(** X11.  An answered /embed/image read the upload first, and carries the
    service's model name and the vector [encode_image] returned for the
    bytes read. *)
Theorem embed_image_response_fields clk file w resp w' :
  embed_image clk file w = (Returned resp, w') ->
  py_in (content_type file) allowed_types = true /\
  image_model resp = model_name (embedding_service w) /\
  image_processing_time_ms resp = elapsed_ms (start_time clk) (end_time clk) /\
  exists data w1,
    read file = Returned data /\
    encode_image (embedding_service w) data (logged UploadRead w)
      = (Returned (image_embedding resp), w1) /\
    w' = counted 1 (now clk) w1.
Proof.
  intro H. destruct (py_in (content_type file) allowed_types) eqn:Hin.
  2:{ unfold embed_image in H. rewrite Hin in H. discriminate. }
  pose proof (embed_image_cases clk file w Hin) as C.
  destruct (read file) as [data | e]; [ | congruence ].
  destruct (encode_image (embedding_service w) data (logged UploadRead w))
    as [[emb | e] w1] eqn:He; [ | congruence ].
  destruct (List.length emb =? 512)%nat;
    [ | destruct C as [d C]; congruence ].
  rewrite C in H. inversion H. subst. simpl.
  repeat split. exists data, w1. repeat split. exact He.
Qed.

(** X12.  The metrics are updated before the response is built: when the encoder
    returns a vector that is not 512 long, the request is answered with
    HTTP 500 and is counted all the same. *)
Theorem wrong_length_still_counted (clk : Clock) (w : World) :
  (forall body emb w1,
     encode_text (embedding_service w)
       (Some (apply_prompt_template (text body) (prompt_template body))) w
       = (Returned emb, w1) ->
     List.length emb <> 512%nat ->
     http_status (fst (embed_text clk body w)) = 500 /\
     request_counter (snd (embed_text clk body w)) = request_counter w + 1 /\
     last_request_time (snd (embed_text clk body w)) = Some (now clk)) /\
  (forall file data emb w1,
     py_in (content_type file) allowed_types = true ->
     read file = Returned data ->
     encode_image (embedding_service w) data (logged UploadRead w)
       = (Returned emb, w1) ->
     List.length emb <> 512%nat ->
     http_status (fst (embed_image clk file w)) = 500 /\
     request_counter (snd (embed_image clk file w)) = request_counter w + 1 /\
     last_request_time (snd (embed_image clk file w)) = Some (now clk)).
Proof.
  split.
  - intros body emb w1 He Hlen.
    pose proof (embed_text_cases clk body w) as C. simpl in C.
    pose proof (encode_text_metrics (embedding_service w)
      (Some (apply_prompt_template (text body) (prompt_template body))) w)
      as [F1 _].
    rewrite He in C, F1. apply Nat.eqb_neq in Hlen. rewrite Hlen in C.
    destruct C as [d C]. rewrite C. simpl in *. rewrite F1. auto.
  - intros file data emb w1 Hin Hr He Hlen.
    pose proof (embed_image_cases clk file w Hin) as C.
    pose proof (encode_image_metrics (embedding_service w) data
      (logged UploadRead w)) as [F1 _].
    rewrite Hr, He in C. rewrite He in F1.
    apply Nat.eqb_neq in Hlen. rewrite Hlen in C.
    destruct C as [d C]. rewrite C. simpl in *. rewrite F1. auto.
Qed.

(** X13.  After an answered /embed/text, /health reports "healthy", one request
    more than before, and the time of that request. *)
Theorem health_after_embed_text clk body w resp w' :
  embed_text clk body w = (Returned resp, w') ->
  exists h,
    fst (health_check w') = Returned h /\
    status h = "healthy" /\ model_loaded h = true /\
    total_requests h = request_counter w + 1 /\
    last_request h = Some (isoformat (now clk)).
Proof.
  intro H. pose proof (embed_text_cases clk body w) as C. simpl in C.
  pose proof (encode_text_metrics (embedding_service w)
    (Some (apply_prompt_template (text body) (prompt_template body))) w)
    as [F1 _].
  pose proof (encode_text_service (embedding_service w)
    (Some (apply_prompt_template (text body) (prompt_template body))) w) as F0.
  destruct (encode_text (embedding_service w)
    (Some (apply_prompt_template (text body) (prompt_template body))) w)
    as [[emb | e] w1] eqn:He; [ | congruence ].
  apply encode_text_loaded in He.
  destruct (List.length emb =? 512)%nat;
    [ | destruct C as [d C]; congruence ].
  rewrite C in H. inversion H. subst. simpl in *.
  eexists. split; [ reflexivity | ]. simpl.
  rewrite F0, He, F1. repeat split.
Qed.

(** *** Why a batch request fails *)

Lemma batch_step_raised item_get type item acc w e w' :
  batch_step item_get type item acc w = (Raised e, w') ->
  item_get item "id" None = Raised e.
Proof.
  destruct acc as [[embs s] f]. unfold batch_step. intro H.
  apply try_Raised in H. destruct H as (e0 & w1 & _ & H).
  apply bind_Raised in H. destruct H as [H | (i & w2 & _ & H)].
  - unfold lift in H. inversion H. reflexivity.
  - discriminate.
Qed.

Lemma batch_loop_raised item_get type l : forall acc w e w',
  batch_loop item_get type l acc w = (Raised e, w') ->
  exists item, In item l /\ item_get item "id" None = Raised e.
Proof.
  induction l as [| item rest IH]; simpl; intros acc w e w' H.
  - discriminate.
  - apply bind_Raised in H. destruct H as [H | (acc1 & w1 & _ & H)].
    + apply batch_step_raised in H. eauto.
    + apply IH in H. destruct H as (it & Hin & Hit). eauto.
Qed.

(** X14.  The only exception that escapes the per-item handler is one raised by
    [item.get("id")] inside that handler.  So a batch request answered with
    HTTP 500 names such an exception in its detail, and it left the
    counter and the timestamp alone. *)
Theorem batch_failure_cause item_get clk body w h w' :
  embed_batch_with item_get clk body w = (Raised h, w') ->
  (exists item e,
     In item (items body) /\
     item_get item "id" None = Raised e /\
     h = mkHTTPException 500 ("Batch embedding failed: " ++ str e)) /\
  request_counter w' = request_counter w /\
  last_request_time w' = last_request_time w.
Proof.
  unfold embed_batch_with. intro H.
  apply try_Raised in H. destruct H as (e & w1 & H1 & H).
  unfold raise in H. inversion H. subst. clear H.
  apply bind_Raised in H1. destruct H1 as [H1 | (acc & w2 & _ & H1)].
  - pose proof (frames_batch_loop item_get (type body) (items body) ([], 0, 0) w)
      as (_ & Fc & Ft & _).
    rewrite H1 in Fc, Ft. simpl in Fc, Ft.
    apply batch_loop_raised in H1. destruct H1 as (item & Hin & Hit).
    split; [ exists item, e; auto | auto ].
  - destruct acc as [[embs s] f]. discriminate.
Qed.

(** *** Templated text *)

Lemma length_append (a b : string) :
  String.length (a ++ b) = (String.length a + String.length b)%nat.
Proof. induction a as [| c a IH]; simpl; [ reflexivity | now rewrite IH ]. Qed.

Lemma substring_prefix (t b : string) :
  substring 0 (String.length t) (t ++ b) = t.
Proof.
  induction t as [| c t IH]; simpl.
  - destruct b; reflexivity.
  - now rewrite IH.
Qed.

Lemma substring_middle (a t b : string) :
  substring (String.length a) (String.length t) (a ++ t ++ b) = t.
Proof.
  induction a as [| c a IH]; simpl; [ apply substring_prefix | exact IH ].
Qed.

(** X16.  The query can be read back from the templated text: it sits at offset
    29 under "visual" and "content" and at offset 0 otherwise, and the
    template adds 76, 71 or 0 characters. *)
Theorem apply_prompt_template_round_trip (text template : string) :
  let off := if String.eqb template "visual" then 29%nat
             else if String.eqb template "content" then 29%nat else 0%nat in
  let extra := if String.eqb template "visual" then 76%nat
               else if String.eqb template "content" then 71%nat else 0%nat in
  substring off (String.length text) (apply_prompt_template text template) = text /\
  String.length (apply_prompt_template text template)
    = (String.length text + extra)%nat.
Proof.
  unfold apply_prompt_template.
  destruct (String.eqb template "visual").
  - split.
    + exact (substring_middle "A digital art card featuring " text
               ", with emphasis on visual style and composition").
    + rewrite !length_append. simpl. lia.
  - destruct (String.eqb template "content").
    + split.
      * exact (substring_middle "A digital art card depicting " text
                 ", focused on the subject matter and themes").
      * rewrite !length_append. simpl. lia.
    + split.
      * rewrite <- (substring_prefix text "") at 2.
        f_equal. clear. induction text as [| c t IH]; simpl; congruence.
      * lia.
Qed.

Lemma apply_prompt_template_facts (text template : string) :
  exists off extra,
    substring off (String.length text) (apply_prompt_template text template) = text /\
    String.length (apply_prompt_template text template)
      = (String.length text + extra)%nat /\
    (extra <= 76)%nat.
Proof.
  unfold apply_prompt_template.
  destruct (String.eqb template "visual").
  - exists 29%nat, 76%nat. split; [ | split; [ | lia ] ].
    + exact (substring_middle "A digital art card featuring " text
               ", with emphasis on visual style and composition").
    + rewrite !length_append. simpl. lia.
  - destruct (String.eqb template "content").
    + exists 29%nat, 71%nat. split; [ | split; [ | lia ] ].
      * exact (substring_middle "A digital art card depicting " text
                 ", focused on the subject matter and themes").
      * rewrite !length_append. simpl. lia.
    + exists 0%nat, 0%nat. split; [ | split; lia ].
      rewrite <- (substring_prefix text "") at 2.
      f_equal. clear. induction text as [| c t IH]; simpl; congruence.
Qed.

(** X17.  Under one template, different queries give different templated
    texts. *)
Theorem apply_prompt_template_injective (t1 t2 template : string) :
  apply_prompt_template t1 template = apply_prompt_template t2 template ->
  t1 = t2.
Proof.
  intro H.
  unfold apply_prompt_template in H.
  assert (Hlen : forall a b x y : string,
            a ++ x ++ b = a ++ y ++ b -> x = y).
  { intros a b x y E.
    assert (L : String.length x = String.length y).
    { apply (f_equal String.length) in E. rewrite !length_append in E. lia. }
    rewrite <- (substring_middle a x b), <- (substring_middle a y b).
    rewrite E, L. reflexivity. }
  destruct (String.eqb template "visual"); [ now apply Hlen in H | ].
  destruct (String.eqb template "content"); [ now apply Hlen in H | exact H ].
Qed.

(** X18.  For a request that passed validation, the text handed to the encoder
    is never empty and is at most 1076 characters long. *)
Theorem validated_text_bounds (r : TextEmbeddingRequest) :
  valid_TextEmbeddingRequest r = true ->
  (1 <= String.length (apply_prompt_template (text r) (prompt_template r))
     <= 1076)%nat.
Proof.
  unfold valid_TextEmbeddingRequest. intro V.
  apply andb_true_iff in V. destruct V as [V _].
  apply andb_true_iff in V. destruct V as [V1 V2].
  apply Nat.leb_le in V1. apply Nat.leb_le in V2.
  destruct (apply_prompt_template_facts (text r) (prompt_template r))
    as (off & extra & _ & L & B).
  rewrite L. lia.
Qed.

(** *** Loading the model *)

Lemma _load_model_returned oc self u self' :
  _load_model oc self = (Returned u, self') ->
  let dev := if cuda_is_available oc then "cuda" else "cpu" in
  exists m pre tk,
    create_model_and_transforms oc (model_name self) (pretrained self) dev
      = Returned (m, pre) /\
    get_tokenizer oc (model_name self) = Returned tk /\
    self' = mkEmbeddingService (Some m) (Some pre) (Some tk) (Some dev)
              (model_name self) (pretrained self) (embedding_dim self).
Proof.
  unfold _load_model. simpl.
  destruct (create_model_and_transforms oc (model_name self) (pretrained self)
              (if cuda_is_available oc then "cuda" else "cpu"))
    as [[m pre] | e]; [ | discriminate ].
  simpl. destruct (get_tokenizer oc (model_name self)) as [tk | e];
    [ | discriminate ].
  simpl. destruct (model_eval oc m); [ | discriminate ].
  intro H. inversion H. exists m, pre, tk. auto.
Qed.

(** X19.  A service object that the constructor hands out is fully loaded: model,
    preprocessing and tokenizer are the ones open_clip gave for "ViT-B-32"
    with the "laion2b_s34b_b79k" weights on the chosen device.  For such a
    service /health reports "healthy" with dimension 512, never
    "degraded". *)
Theorem constructed_service_is_loaded oc s :
  new_EmbeddingService oc = Returned s ->
  let dev := if cuda_is_available oc then "cuda" else "cpu" in
  (exists m pre tk,
     create_model_and_transforms oc "ViT-B-32" "laion2b_s34b_b79k" dev
       = Returned (m, pre) /\
     get_tokenizer oc "ViT-B-32" = Returned tk /\
     s = mkEmbeddingService (Some m) (Some pre) (Some tk) (Some dev)
           "ViT-B-32" "laion2b_s34b_b79k" 512) /\
  is_loaded s = true /\
  forall w, embedding_service w = s ->
    exists h, fst (health_check w) = Returned h /\
      status h = "healthy" /\ model_loaded h = true /\
      health_model_name h = Some "ViT-B-32" /\
      health_embedding_dim h = Some 512.
Proof.
  unfold new_EmbeddingService. intro H.
  destruct (_load_model oc
    (mkEmbeddingService None None None None "ViT-B-32" "laion2b_s34b_b79k" 512))
    as [[u | e] self'] eqn:L; [ | discriminate ].
  inversion H. subst self'. clear H.
  apply _load_model_returned in L. simpl in L.
  destruct L as (m & pre & tk & Hc & Ht & ->).
  split; [ exists m, pre, tk; auto | ].
  split; [ reflexivity | ].
  intros w Hw. eexists. split; [ reflexivity | ].
  unfold is_loaded. simpl. rewrite Hw. simpl. repeat split.
Qed.

(** X20.  When loading fails at any stage the constructor raises the very
    exception open_clip raised, and no service object exists. *)
Theorem constructor_failure oc e :
  new_EmbeddingService oc = Raised e ->
  let dev := if cuda_is_available oc then "cuda" else "cpu" in
  create_model_and_transforms oc "ViT-B-32" "laion2b_s34b_b79k" dev = Raised e \/
  (exists m pre,
     create_model_and_transforms oc "ViT-B-32" "laion2b_s34b_b79k" dev
       = Returned (m, pre) /\
     (get_tokenizer oc "ViT-B-32" = Raised e \/
      model_eval oc m = Raised e)).
Proof.
  unfold new_EmbeddingService, _load_model. simpl.
  destruct (create_model_and_transforms oc "ViT-B-32" "laion2b_s34b_b79k"
              (if cuda_is_available oc then "cuda" else "cpu"))
    as [[m pre] | e0]; simpl.
  2:{ intro H. inversion H. auto. }
  destruct (get_tokenizer oc "ViT-B-32") as [tk | e0]; simpl.
  2:{ intro H. inversion H. right. exists m, pre.
      split; [ reflexivity | left; reflexivity ]. }
  destruct (model_eval oc m) as [u | e0] eqn:Ev; simpl; [ discriminate | ].
  intro H. inversion H. subst. right. exists m, pre.
  split; [ reflexivity | right; exact Ev ].
Qed.

Lemma get_embedding_service_cached oc s :
  get_embedding_service oc (Some s) = (Returned s, Some s).
Proof. reflexivity. Qed.

(** X21.  [get_embedding_service] is a singleton: once a call has returned a
    service, every later call returns that same object and leaves the global
    alone, whatever open_clip would answer by then; a call that raises
    leaves the global unset, so the next call tries to load again. *)
Theorem get_embedding_service_singleton oc :
  (forall s st,
     get_embedding_service oc None = (Returned s, st) ->
     st = Some s /\
     forall ocs,
       get_embedding_service_calls ocs st
         = (map (fun _ => Returned s) ocs, Some s)) /\
  (forall e st,
     get_embedding_service oc None = (Raised e, st) ->
     st = None /\
     forall oc', get_embedding_service oc' st
                 = get_embedding_service oc' None).
Proof.
  split.
  - intros s st H. unfold get_embedding_service in H.
    destruct (new_EmbeddingService oc) as [inst | e]; inversion H; subst.
    split; [ reflexivity | ].
    induction ocs as [| oc' rest IH]; simpl; [ reflexivity | ].
    rewrite IH. reflexivity.
  - intros e st H. unfold get_embedding_service in H.
    destruct (new_EmbeddingService oc) as [inst | e0]; inversion H; subst.
    split; reflexivity.
Qed.

End Properties.

(** ** Concrete runs *)

Lemma embed_image_unsupported_type_witness :
  py_in (content_type Stub.pdf_upload) allowed_types = false /\
  embed_image Stub.clk Stub.pdf_upload Stub.loaded =
    (Raised (mkHTTPException 400
               "Unsupported file type: application/pdf. Allowed: PNG, JPG, GIF"),
     Stub.loaded).
Proof.
  split; [ reflexivity | ].
  apply (embed_image_unsupported_type Stub.clk Stub.pdf_upload Stub.loaded);
    discriminate.
Defined.

Lemma health_check_status_witness :
  (exists resp, fst (health_check Stub.unloaded) = Returned resp /\
     status resp = "degraded" /\ model_loaded resp = false /\
     health_model_name resp = None /\ health_embedding_dim resp = None) /\
  (exists resp, fst (health_check Stub.loaded) = Returned resp /\
     status resp = "healthy" /\ model_loaded resp = true /\
     health_model_name resp = Some "ViT-B-32" /\
     health_embedding_dim resp = Some 512).
Proof.
  split.
  - apply (proj1 (health_check_status Stub.unloaded)). reflexivity.
  - apply (proj2 (health_check_status Stub.loaded)). discriminate.
Defined.

Lemma not_loaded_fails_fast_witness :
  model (embedding_service Stub.unloaded) = None /\
  encode_text (embedding_service Stub.unloaded) (Some "pepe") Stub.unloaded =
    (Raised (Exn RuntimeError "Model not loaded"), Stub.unloaded) /\
  embed_text Stub.clk Stub.text_request Stub.unloaded =
    (Raised (mkHTTPException 500
               "Text embedding generation failed: Model not loaded"),
     Stub.unloaded) /\
  embed_image Stub.clk Stub.png_upload Stub.unloaded =
    (Raised (mkHTTPException 500
               "Image embedding generation failed: Model not loaded"),
     logged UploadRead Stub.unloaded).
Proof.
  split; [ reflexivity | ].
  destruct (not_loaded_fails_fast Stub.clk Stub.unloaded eq_refl)
    as (Ht & _ & _ & Hreq & Himg).
  split; [ apply Ht | ].
  split; [ apply Hreq | ].
  apply (Himg Stub.png_upload [x89; x50; x4e; x47]); reflexivity.
Defined.

Lemma failed_request_leaves_metrics_witness :
  (http_status (fst (embed_text Stub.clk Stub.text_request Stub.faulty)) = 500 /\
   request_counter (snd (embed_text Stub.clk Stub.text_request Stub.faulty)) = 0 /\
   last_request_time (snd (embed_text Stub.clk Stub.text_request Stub.faulty)) = None) /\
  (http_status (fst (embed_image Stub.clk Stub.broken_upload Stub.loaded)) = 500 /\
   request_counter (snd (embed_image Stub.clk Stub.broken_upload Stub.loaded)) = 0) /\
  (http_status (fst (embed_image Stub.clk Stub.png_upload Stub.faulty)) = 500 /\
   request_counter (snd (embed_image Stub.clk Stub.png_upload Stub.faulty)) = 0) /\
  (exists emb w1,
     encode_text (embedding_service Stub.loaded)
       (Some (apply_prompt_template "pepe" "visual")) Stub.loaded
       = (Returned emb, w1)).
Proof.
  destruct (failed_request_leaves_metrics Stub.clk Stub.faulty)
    as (Ht & _ & Hi & _ & _).
  destruct (failed_request_leaves_metrics Stub.clk Stub.loaded)
    as (_ & Hr & _ & Hc & _).
  split; [ | split; [ | split ] ].
  - destruct (Ht Stub.text_request _ _ eq_refl) as (E & C & L).
    rewrite E. repeat split; assumption.
  - destruct (Hr Stub.broken_upload _ eq_refl eq_refl) as (E & C & _).
    rewrite E. split; [ reflexivity | exact C ].
  - destruct (Hi Stub.png_upload _ _ _ eq_refl eq_refl eq_refl) as (E & C & _).
    rewrite E. split; [ reflexivity | exact C ].
  - apply (Hc Stub.text_request). left. vm_compute. discriminate.
Defined.

Lemma batch_entries_exclusive_witness :
  exists resp w',
    embed_batch_with dict_get Stub.clk Stub.two_images Stub.loaded
      = (Returned resp, w') /\
    map success (embeddings resp) = [true; false] /\
    forall e, In e (embeddings resp) ->
      (success e = true -> embedding e <> None /\ error e = None) /\
      (success e = false -> embedding e = None /\ error e <> None).
Proof.
  do 2 eexists. split; [ reflexivity | ]. split; [ reflexivity | ].
  eapply (batch_entries_exclusive dict_get Stub.clk Stub.two_images Stub.loaded).
  reflexivity.
Defined.

Lemma metrics_after_request_witness :
  (exists resp w',
     embed_text Stub.clk Stub.text_request Stub.loaded = (Returned resp, w') /\
     request_counter w' = request_counter Stub.loaded + 1 /\
     last_request_time w' = Some 11) /\
  (exists resp w',
     embed_image Stub.clk Stub.png_upload Stub.loaded = (Returned resp, w') /\
     request_counter w' = request_counter Stub.loaded + 1 /\
     last_request_time w' = Some 11) /\
  (exists resp w',
     embed_batch_with dict_get Stub.clk Stub.two_texts Stub.loaded
       = (Returned resp, w') /\
     successful resp = 2 /\
     request_counter w' = request_counter Stub.loaded + 2 /\
     last_request_time w' = Some 11).
Proof.
  destruct (metrics_after_request Stub.clk Stub.loaded) as (Ht & Hi & Hb & _).
  split; [ | split ].
  - do 2 eexists. split; [ reflexivity | ].
    apply (Ht Stub.text_request _ _ eq_refl).
  - do 2 eexists. split; [ reflexivity | ].
    apply (Hi Stub.png_upload _ _ eq_refl).
  - do 2 eexists. split; [ reflexivity | ]. split; [ reflexivity | ].
    destruct (Hb dict_get Stub.two_texts _ _ eq_refl) as (C & _ & L).
    split; [ exact C | exact L ].
Defined.

(** C7, as stated, fails on the empty batch: the request is answered
    (HTTP 200) and the counter stays where it was instead of growing by
    one. *)
Lemma empty_batch_not_counted :
  exists resp w',
    embed_batch Stub.clk Stub.empty_batch Stub.loaded = (Returned resp, w') /\
    http_status (fst (embed_batch Stub.clk Stub.empty_batch Stub.loaded)) = 200 /\
    request_counter w' = request_counter Stub.loaded /\
    request_counter w' <> request_counter Stub.loaded + 1.
Proof.
  do 2 eexists. split; [ reflexivity | ]. split; [ reflexivity | ].
  split; [ reflexivity | ]. vm_compute. discriminate.
Qed.

(** C2 (broken by the code).  A batch of one text item should come back as
    one entry with counts adding up to one.  As written the endpoint answers
    HTTP 500 instead: the item is a [BatchItem] object, [item.get] raises
    AttributeError in the [try] body and again in the handler that was
    meant to record the failure, and no entry is returned. *)
Theorem embed_batch_one_item_fails :
  valid_BatchEmbeddingRequest Stub.one_text = true /\
  embed_batch Stub.clk Stub.one_text Stub.loaded =
    (Raised (mkHTTPException 500
               "Batch embedding failed: 'BatchItem' object has no attribute 'get'"),
     Stub.loaded).
Proof. split; reflexivity. Qed.

(** The same request with dict items is answered, with one entry. *)
Example embed_batch_one_item_dict :
  exists resp w',
    embed_batch_with dict_get Stub.clk Stub.one_text Stub.loaded
      = (Returned resp, w') /\
    map success (embeddings resp) = [true] /\
    total resp = 1 /\ successful resp = 1 /\ failed resp = 0.
Proof. do 2 eexists. repeat split; reflexivity. Qed.

(** ** More concrete runs *)


Lemma encode_text_returned_witness :
  exists emb w',
    encode_text (embedding_service Stub.loaded) (Some "pepe") Stub.loaded
      = (Returned emb, w') /\
    exists m tk toks raw rows,
      model (embedding_service Stub.loaded) = Some m /\
      tokenizer (embedding_service Stub.loaded) = Some tk /\
      tk [Some "pepe"] = Returned toks /\
      clip_encode_text m toks = Returned (raw :: rows) /\
      emb = unit_norm raw.
Proof.
  do 2 eexists. split; [ reflexivity | ].
  eapply (encode_text_returned (embedding_service Stub.loaded) (Some "pepe")
            Stub.loaded).
  reflexivity.
Defined.

Lemma encode_image_returned_witness :
  exists emb w',
    encode_image (embedding_service Stub.loaded) [x89; x50] Stub.loaded
      = (Returned emb, w') /\
    trace w' = [ImageDecode; Preprocess; ModelEncodeImage].
Proof.
  do 2 eexists. split; [ reflexivity | ].
  destruct (encode_image_returned (embedding_service Stub.loaded) [x89; x50]
              Stub.loaded eq_refl)
    as (m & pre & img & t & raw & rows & _ & _ & _ & _ & _ & _ & Hw).
  reflexivity.
Defined.

Lemma encode_text_call_order_witness :
  trace (snd (encode_text (embedding_service Stub.loaded) (Some "pepe") Stub.loaded))
    = [Tokenize; ModelEncodeText] /\
  exists tk toks,
    tokenizer (embedding_service Stub.loaded) = Some tk /\
    tk [Some "pepe"] = Returned toks.
Proof.
  destruct (encode_text_call_order (embedding_service Stub.loaded) (Some "pepe")
              Stub.loaded) as (n & Ht & Hr & Hn).
  assert (E : n = 2%nat) by (eapply Hr; reflexivity).
  subst n. split; [ exact Ht | ]. apply Hn. lia.
Defined.

Lemma encode_image_call_order_witness :
  trace (snd (encode_image (embedding_service Stub.loaded) [x89; x50] Stub.loaded))
    = [ImageDecode; Preprocess; ModelEncodeImage] /\
  exists pre img t,
    preprocess (embedding_service Stub.loaded) = Some pre /\
    @Image_open_rgb Stub.rt [x89; x50] = Returned img /\
    pre img = Returned t.
Proof.
  destruct (encode_image_call_order (embedding_service Stub.loaded) [x89; x50]
              Stub.loaded) as (n & Ht & Hr & _ & Hn).
  assert (E : n = 3%nat) by (eapply Hr; reflexivity).
  subst n. split; [ exact Ht | ]. apply Hn. lia.
Defined.

Lemma encode_text_is_batch_of_one_witness :
  exists emb rest w',
    encode_text (embedding_service Stub.loaded) (Some "pepe") Stub.loaded
      = (Returned emb, w') /\
    encode_batch_text (embedding_service Stub.loaded) [Some "pepe"] Stub.loaded
      = (Returned (emb :: rest), w').
Proof.
  destruct (encode_text_is_batch_of_one (embedding_service Stub.loaded)
              (Some "pepe") Stub.loaded) as (H1 & _ & _).
  destruct (H1 _ _ eq_refl) as [rest Hb].
  do 3 eexists. split; [ reflexivity | exact Hb ].
Defined.


Lemma embed_text_response_fields_witness :
  exists resp w',
    embed_text Stub.clk Stub2.raw_request Stub.loaded = (Returned resp, w') /\
    processed_text resp = "green frog" /\
    text_model resp = "ViT-B-32".
Proof.
  do 2 eexists. split; [ reflexivity | ].
  destruct (embed_text_response_fields Stub.clk Stub2.raw_request Stub.loaded
              eq_refl) as (_ & Hraw & Hm & _).
  split; [ apply Hraw; reflexivity | exact Hm ].
Defined.

Lemma embed_image_response_fields_witness :
  exists resp w',
    embed_image Stub.clk Stub.png_upload Stub.loaded = (Returned resp, w') /\
    py_in (content_type Stub.png_upload) allowed_types = true /\
    image_model resp = "ViT-B-32".
Proof.
  do 2 eexists. split; [ reflexivity | ].
  destruct (embed_image_response_fields Stub.clk Stub.png_upload Stub.loaded
              eq_refl) as (Hin & Hm & _).
  split; [ exact Hin | exact Hm ].
Defined.

Lemma wrong_length_still_counted_witness :
  http_status (fst (embed_text Stub.clk Stub.text_request Stub2.short)) = 500 /\
  request_counter (snd (embed_text Stub.clk Stub.text_request Stub2.short)) = 1 /\
  http_status (fst (embed_image Stub.clk Stub.png_upload Stub2.short)) = 500 /\
  request_counter (snd (embed_image Stub.clk Stub.png_upload Stub2.short)) = 1.
Proof.
  destruct (wrong_length_still_counted Stub.clk Stub2.short) as (Ht & Hi).
  destruct (Ht Stub.text_request [1; 2; 3] _ eq_refl) as (S1 & C1 & _);
    [ discriminate | ].
  destruct (Hi Stub.png_upload _ [1; 2; 3] _ eq_refl eq_refl eq_refl)
    as (S2 & C2 & _); [ discriminate | ].
  repeat split; assumption.
Defined.

Lemma health_after_embed_text_witness :
  exists resp w' h,
    embed_text Stub.clk Stub.text_request Stub.loaded = (Returned resp, w') /\
    fst (health_check w') = Returned h /\
    status h = "healthy" /\ total_requests h = 1.
Proof.
  destruct (health_after_embed_text Stub.clk Stub.text_request Stub.loaded eq_refl)
    as (h & Hh & Hs & _ & Ht & _).
  do 2 eexists. exists h. split; [ reflexivity | ].
  split; [ exact Hh | ]. split; [ exact Hs | exact Ht ].
Defined.

Lemma batch_failure_cause_witness :
  exists h w',
    embed_batch_with BatchItem_get Stub.clk Stub.one_text Stub.loaded
      = (Raised h, w') /\
    request_counter w' = 0 /\
    exists item e,
      In item (items Stub.one_text) /\
      BatchItem_get item "id" None = Raised e /\
      h = mkHTTPException 500 ("Batch embedding failed: " ++ str e).
Proof.
  do 2 eexists. split; [ reflexivity | ].
  destruct (batch_failure_cause BatchItem_get Stub.clk Stub.one_text Stub.loaded
              eq_refl) as (Hc & Hn & _).
  split; [ exact Hn | exact Hc ].
Defined.

Lemma embed_batch_nonempty_witness :
  valid_BatchEmbeddingRequest Stub.two_images = true /\
  items Stub.two_images <> [] /\
  http_status (fst (embed_batch Stub.clk Stub.two_images Stub.loaded)) = 500 /\
  snd (embed_batch Stub.clk Stub.two_images Stub.loaded) = Stub.loaded.
Proof.
  split; [ reflexivity | ]. split; [ discriminate | ].
  rewrite (embed_batch_nonempty Stub.clk Stub.two_images Stub.loaded eq_refl);
    [ split; reflexivity | discriminate ].
Defined.

Lemma apply_prompt_template_injective_witness :
  apply_prompt_template "pepe" "content" = apply_prompt_template "pepe" "content" /\
  "pepe" = "pepe".
Proof.
  split; [ reflexivity | ].
  apply (apply_prompt_template_injective "pepe" "pepe" "content"). reflexivity.
Defined.

Lemma validated_text_bounds_witness :
  valid_TextEmbeddingRequest Stub.text_request = true /\
  (1 <= String.length
          (apply_prompt_template (text Stub.text_request)
             (prompt_template Stub.text_request)) <= 1076)%nat.
Proof.
  split; [ reflexivity | ].
  apply (validated_text_bounds Stub.text_request). reflexivity.
Defined.

Lemma constructed_service_is_loaded_witness :
  new_EmbeddingService Stub2.open_clip_ok = Returned Stub.loaded_service /\
  is_loaded Stub.loaded_service = true /\
  exists h, fst (health_check Stub.loaded) = Returned h /\ status h = "healthy".
Proof.
  split; [ reflexivity | ].
  destruct (constructed_service_is_loaded Stub2.open_clip_ok
              (s := Stub.loaded_service) eq_refl) as (_ & Hl & Hh).
  split; [ exact Hl | ].
  destruct (Hh Stub.loaded eq_refl) as (h & H1 & H2 & _).
  exists h. split; assumption.
Defined.

Lemma constructor_failure_witness :
  new_EmbeddingService Stub2.open_clip_down
    = Raised (Exn LibraryError "Failed to download pretrained weights") /\
  create_model_and_transforms Stub2.open_clip_down
    "ViT-B-32" "laion2b_s34b_b79k" "cpu"
    = Raised (Exn LibraryError "Failed to download pretrained weights").
Proof.
  split; [ reflexivity | ].
  destruct (constructor_failure Stub2.open_clip_down eq_refl)
    as [H | (m & pre & H & _)]; [ exact H | discriminate H ].
Defined.

Lemma get_embedding_service_singleton_witness :
  get_embedding_service_calls
    [Stub2.open_clip_down; Stub2.open_clip_down]
    (snd (get_embedding_service Stub2.open_clip_ok None))
  = ([Returned Stub.loaded_service; Returned Stub.loaded_service],
     Some Stub.loaded_service).
Proof.
  destruct (get_embedding_service_singleton Stub2.open_clip_ok) as (Hs & _).
  destruct (Hs Stub.loaded_service _ eq_refl) as (_ & Hcalls).
  exact (Hcalls [Stub2.open_clip_down; Stub2.open_clip_down]).
Defined.

(** * Properties of the chat-history splitter *)

Module SplitHistoryFacts.

Import SplitHistory.

Section Facts.

Variable real : Type.
Variable real_is_zero : real -> bool.

(** *** [clean_message] *)

Lemma strip_empty : strip "" = "".
Proof. reflexivity. Qed.

(** A field other than the text is copied when present. *)
Lemma keep_field_plain (msg : dict real) (field : string) (cleaned : dict real) :
  String.eqb field "text" = false ->
  keep_field real_is_zero msg field cleaned =
    Returned (Continue match lookup msg field with
                       | Some v => dict_set cleaned field v
                       | None => cleaned
                       end).
Proof.
  intro H. unfold keep_field. rewrite H. destruct (lookup msg field); reflexivity.
Qed.

(** What the text field can lead to. *)
Lemma keep_field_text (msg : dict real) (cleaned cleaned' : dict real) :
  keep_field real_is_zero msg "text" cleaned = Returned (Continue cleaned') ->
  (lookup msg "text" = None /\ cleaned' = cleaned) \/
  exists t,
    cleaned' = dict_set cleaned "text" (JStr t) /\
    t <> "" /\ strip t <> "" /\
    (lookup msg "text" = Some (JStr t) \/
     exists l, lookup msg "text" = Some (JList l) /\
               join (text_parts l) = Returned t).
Proof.
  unfold keep_field. simpl.
  destruct (lookup msg "text") as [value |].
  2:{ intro H. inversion H. auto. }
  assert (Hstr : forall t,
    (if negb (truthy real_is_zero (JStr t))
     then Returned ReturnNone
     else if negb (truthy real_is_zero (JStr (strip t)))
          then Returned ReturnNone
          else Returned (Continue (dict_set cleaned "text" (JStr t))))
    = (Returned (Continue cleaned') : outcome pyexc (progress real)) ->
    cleaned' = dict_set cleaned "text" (JStr t) /\ t <> "" /\ strip t <> "").
  { intros t H. simpl in H.
    destruct (String.eqb_spec t ""); simpl in H; [ discriminate | ].
    destruct (String.eqb_spec (strip t) ""); simpl in H; [ discriminate | ].
    inversion H. auto. }
  destruct value as [| b | n | x | t | l | d]; simpl.
  - discriminate.
  - destruct b; discriminate.
  - destruct (n =? 0); discriminate.
  - destruct (real_is_zero x); discriminate.
  - intro H. apply Hstr in H. destruct H as (H1 & H2 & H3).
    right. exists t. auto.
  - destruct (join (text_parts l)) as [t | e] eqn:J; [ | discriminate ].
    intro H. apply Hstr in H. destruct H as (H1 & H2 & H3).
    right. exists t. repeat split; auto. right. exists l. auto.
  - destruct d; discriminate.
Qed.

(** The four fields, one after the other. *)
Lemma keep_fields_all (msg : dict real) (cleaned : dict real) :
  keep_fields real_is_zero msg FIELDS_TO_KEEP [] = Returned (Continue cleaned) ->
  let c1 := match lookup msg "from" with
            | Some v => dict_set [] "from" v | None => [] end in
  let c2 := match lookup msg "from_id" with
            | Some v => dict_set c1 "from_id" v | None => c1 end in
  exists c3,
    keep_field real_is_zero msg "text" c2 = Returned (Continue c3) /\
    cleaned = match lookup msg "date" with
              | Some v => dict_set c3 "date" v | None => c3 end.
Proof.
  unfold FIELDS_TO_KEEP. cbn [SplitHistory.keep_fields].
  rewrite (keep_field_plain msg "from" []) by reflexivity.
  rewrite (keep_field_plain msg "from_id") by reflexivity.
  intro H.
  destruct (keep_field real_is_zero msg "text" _) as [[c3 |] | e];
    try discriminate.
  rewrite (keep_field_plain msg "date") in H by reflexivity.
  inversion H. exists c3. auto.
Qed.

(** The shape of a message that was kept. *)
Lemma clean_message_shape (msg : json real) (c : dict real) :
  clean_message real_is_zero msg = Returned (Some c) ->
  exists d t,
    msg = JDict d /\ is_service d = false /\
    t <> "" /\ strip t <> "" /\
    (lookup d "text" = Some (JStr t) \/
     exists l, lookup d "text" = Some (JList l) /\
               join (text_parts l) = Returned t) /\
    c = ((match lookup d "from" with Some v => [("from", v)] | None => [] end)
         ++ (match lookup d "from_id" with Some v => [("from_id", v)] | None => [] end)
         ++ [("text", JStr t)]
         ++ (match lookup d "date" with Some v => [("date", v)] | None => [] end))%list.
Proof.
  destruct msg as [| | | | | | d]; try discriminate.
  unfold SplitHistory.clean_message.
  destruct (is_service d) eqn:S; [ discriminate | ].
  destruct (keep_fields real_is_zero d FIELDS_TO_KEEP []) as [[cleaned |] | e] eqn:K;
    try discriminate.
  apply keep_fields_all in K. simpl in K. destruct K as (c3 & K3 & ->).
  apply keep_field_text in K3.
  destruct K3 as [[Hn ->] | (t & -> & Ht & Hs & Hsrc)].
  - (* no text in the message: nothing is kept *)
    destruct (lookup d "from"), (lookup d "from_id"), (lookup d "date");
      simpl; discriminate.
  - intro H. exists d, t. repeat split; auto.
    destruct (lookup d "from"), (lookup d "from_id"), (lookup d "date");
      simpl in H |- *;
      (destruct (String.eqb t ""); simpl in H; [ discriminate | ]);
      inversion H; reflexivity.
Qed.

(** X22.  A message that was kept has a text that is not blank, carries the kept
    fields that the original had and no other, in the order from, from_id,
    text, date, and every field but the text is the original's value. *)
Theorem clean_message_kept (msg : json real) (c : dict real) :
  clean_message real_is_zero msg = Returned (Some c) ->
  exists d,
    msg = JDict d /\ is_service d = false /\
    has_text c /\
    map fst c = filter (fun f => match lookup d f with
                                 | Some _ => true
                                 | None => false
                                 end) FIELDS_TO_KEEP /\
    lookup c "from" = lookup d "from" /\
    lookup c "from_id" = lookup d "from_id" /\
    lookup c "date" = lookup d "date".
Proof.
  intro H. apply clean_message_shape in H.
  destruct H as (d & t & -> & S & Ht & Hs & Hsrc & ->).
  exists d. split; [ reflexivity | ]. split; [ exact S | ].
  assert (Htext : exists v, lookup d "text" = Some v).
  { destruct Hsrc as [E | (l & E & _)]; eauto. }
  destruct Htext as [v Hv].
  split.
  - exists t. split; [ | exact Hs ].
    destruct (lookup d "from"), (lookup d "from_id"), (lookup d "date");
      reflexivity.
  - unfold FIELDS_TO_KEEP. simpl. rewrite Hv.
    destruct (lookup d "from"), (lookup d "from_id"), (lookup d "date");
      repeat split; reflexivity.
Qed.

(** X23.  Cleaning is idempotent: a message that was kept, cleaned again, comes
    back as it is. *)
Theorem clean_message_idempotent (msg : json real) (c : dict real) :
  clean_message real_is_zero msg = Returned (Some c) ->
  clean_message real_is_zero (JDict c) = Returned (Some c).
Proof.
  intro H. apply clean_message_shape in H.
  destruct H as (d & t & _ & _ & Ht & Hs & _ & ->).
  apply String.eqb_neq in Ht. apply String.eqb_neq in Hs.
  destruct (lookup d "from"), (lookup d "from_id"), (lookup d "date");
    unfold SplitHistory.clean_message, is_service, FIELDS_TO_KEEP; simpl;
    unfold SplitHistory.keep_field; simpl; rewrite Ht; simpl; rewrite Hs; simpl;
    rewrite Ht; reflexivity.
Qed.

(** *** The cleaning loop *)

Lemma is_service_cleans_to_None (d : dict real) :
  is_service d = true -> clean_message real_is_zero (JDict d) = Returned None.
Proof. intro H. unfold clean_message. now rewrite H. Qed.

Lemma clean_step_returned (msg : json real) (t t' : tally real) :
  clean_step real_is_zero msg t = Returned t' ->
  cleaned_messages t' = (cleaned_messages t ++ kept real_is_zero msg)%list /\
  Z.of_nat (List.length (cleaned_messages t')) + skipped_service t' + skipped_no_text t'
  = Z.of_nat (List.length (cleaned_messages t)) + skipped_service t + skipped_no_text t + 1.
Proof.
  destruct msg as [| | | | | | d]; try discriminate.
  unfold clean_step, kept.
  destruct (is_service d) eqn:S.
  - rewrite (is_service_cleans_to_None d S).
    intro H. inversion H. simpl. rewrite app_nil_r. split; [ reflexivity | lia ].
  - destruct (clean_message real_is_zero (JDict d)) as [[c |] | e] eqn:C;
      [ | | discriminate ].
    + apply clean_message_shape in C.
      destruct C as (d' & t0 & _ & _ & _ & _ & _ & ->).
      assert (T : truthy real_is_zero
                (JDict ((match lookup d' "from" with
                         | Some v => [("from", v)] | None => [] end)
                        ++ (match lookup d' "from_id" with
                            | Some v => [("from_id", v)] | None => [] end)
                        ++ [("text", JStr t0)]
                        ++ (match lookup d' "date" with
                            | Some v => [("date", v)] | None => [] end))%list)
                = true).
      { destruct (lookup d' "from"), (lookup d' "from_id"); reflexivity. }
      rewrite T. intro H. inversion H. simpl.
      split; [ reflexivity | ]. rewrite length_app. simpl. lia.
    + intro H. inversion H. simpl. rewrite app_nil_r.
      split; [ reflexivity | lia ].
Qed.

(** X24.  The loop keeps, in their order, exactly the messages that
    [clean_message] keeps, and its three counters add up to the number of
    messages gone through. *)
Theorem clean_loop_returned (msgs : list (json real)) : forall t t',
  clean_loop real_is_zero msgs t = Returned t' ->
  cleaned_messages t'
    = (cleaned_messages t ++ flat_map (kept real_is_zero) msgs)%list /\
  Z.of_nat (List.length (cleaned_messages t')) + skipped_service t' + skipped_no_text t'
  = Z.of_nat (List.length (cleaned_messages t)) + skipped_service t + skipped_no_text t
    + Z.of_nat (List.length msgs).
Proof.
  induction msgs as [| msg rest IH]; intros t t' H; simpl in H.
  - inversion H. simpl. rewrite app_nil_r. split; [ reflexivity | lia ].
  - destruct (clean_step real_is_zero msg t) as [t1 | e] eqn:S; [ | discriminate ].
    apply clean_step_returned in S. destruct S as [S1 S2].
    apply IH in H. destruct H as [H1 H2].
    split.
    + rewrite H1, S1. simpl. now rewrite <- app_assoc.
    + rewrite H2, S2. simpl List.length. lia.
Qed.

Lemma clean_loop_kept (msgs : list (json real)) (t : tally real) :
  clean_loop real_is_zero msgs (mkTally [] 0 0) = Returned t ->
  cleaned_messages t = flat_map (kept real_is_zero) msgs.
Proof.
  intro H. apply clean_loop_returned in H. destruct H as [H _]. exact H.
Qed.

Lemma kept_has_text (msg : json real) (c : dict real) :
  In c (kept real_is_zero msg) -> has_text c.
Proof.
  unfold kept.
  destruct (clean_message real_is_zero msg) as [[c' |] | e] eqn:C;
    simpl; try contradiction.
  intros [<- | []].
  apply clean_message_shape in C.
  destruct C as (d & t & _ & _ & _ & Hs & _ & ->).
  exists t. split; [ | exact Hs ].
  destruct (lookup d "from"), (lookup d "from_id"); reflexivity.
Qed.

(** *** Slices and chunk arithmetic *)

Lemma py_slice_inside A (l : list A) (a b : Z) :
  0 <= a <= b -> b <= Z.of_nat (List.length l) ->
  py_slice l a b = firstn (Z.to_nat b - Z.to_nat a) (skipn (Z.to_nat a) l).
Proof.
  intros Hab Hb. unfold py_slice, clamp.
  destruct (Z.ltb_spec a 0); [ lia | ].
  destruct (Z.ltb_spec b 0); [ lia | ].
  rewrite !Z.min_l by lia. now rewrite Z2Nat.inj_sub by lia.
Qed.

Lemma firstn_split A (a : nat) : forall (b : nat) (l : list A),
  (a <= b)%nat ->
  firstn b l = (firstn a l ++ firstn (b - a) (skipn a l))%list.
Proof.
  induction a as [| a IH]; intros b l H; simpl.
  - now rewrite Nat.sub_0_r.
  - destruct b as [| b]; [ lia | ]. destruct l as [| x l]; simpl.
    + now rewrite firstn_nil.
    + f_equal. apply IH. lia.
Qed.

Lemma ceil_div_bounds (total cs : Z) :
  0 < cs -> 0 <= total ->
  let n := (total + cs - 1) / cs in
  0 <= n /\ total <= n * cs /\ (forall k, 0 <= k < n -> k * cs < total).
Proof.
  intros Hcs Ht n.
  pose proof (Z.div_mod (total + cs - 1) cs ltac:(lia)) as D.
  pose proof (Z.mod_pos_bound (total + cs - 1) cs Hcs) as B.
  fold n in D.
  assert (0 <= n) by (apply Z.div_pos; lia).
  repeat split; [ assumption | nia | intros k Hk; nia ].
Qed.

(** The slice taken for chunk [i]. *)
Lemma chunks_prefix A (l : list A) (cs : Z) :
  0 < cs ->
  forall k : nat,
    Z.of_nat k * cs < Z.of_nat (List.length l) + cs ->
    concat (map (fun i => py_slice l (i * cs)
                            (Z.min ((i + 1) * cs) (Z.of_nat (List.length l))))
                (map Z.of_nat (seq 0 k)))
    = firstn (Z.to_nat (Z.min (Z.of_nat k * cs) (Z.of_nat (List.length l)))) l.
Proof.
  intros Hcs. induction k as [| k IH]; intro Hk.
  - simpl. rewrite Z.min_l by lia. reflexivity.
  - rewrite seq_S, !map_app, concat_app. simpl.
    rewrite IH by lia. rewrite app_nil_r.
    rewrite (Z.min_l (Z.of_nat k * cs)) by lia.
    rewrite py_slice_inside by lia.
    replace (Z.of_nat k + 1) with (Z.of_nat (S k)) by lia.
    symmetry. apply firstn_split. apply Z2Nat.inj_le; lia.
Qed.

Lemma chunks_cover A (l : list A) (cs : Z) :
  0 < cs ->
  concat (map (fun i => py_slice l (i * cs)
                          (Z.min ((i + 1) * cs) (Z.of_nat (List.length l))))
              (py_range ((Z.of_nat (List.length l) + cs - 1) / cs)))
  = l.
Proof.
  intro Hcs. unfold py_range.
  destruct (@ceil_div_bounds (Z.of_nat (List.length l)) cs Hcs ltac:(lia))
    as (Hn & Hcover & Hlt).
  set (n := (Z.of_nat (List.length l) + cs - 1) / cs) in *.
  rewrite chunks_prefix; [ | exact Hcs | ].
  - rewrite Z2Nat.id by lia. rewrite Z.min_r by lia.
    rewrite Nat2Z.id. apply firstn_all.
  - rewrite Z2Nat.id by lia.
    destruct (Z.eq_dec n 0) as [-> | Hz]; [ lia | ].
    specialize (Hlt (n - 1) ltac:(lia)). lia.
Qed.

Lemma written_writes (f : Z -> effect real) (g : Z -> chunk_data real)
    (name : Z -> string) (l : list Z) :
  (forall i, f i = WriteJson (name i) (g i)) ->
  written (map f l) = map g l.
Proof.
  intro H. induction l as [| i l IH]; simpl; [ reflexivity | ].
  rewrite H. simpl. now rewrite IH.
Qed.

(** *** [split_messages] *)

(** The chunk object written for index [i]. *)
Lemma split_messages_returned (data : dict real) (dir : string) (cs : Z)
    (effs : list (effect real)) :
  split_messages real_is_zero (Returned (JDict data)) dir cs = (Returned tt, effs) ->
  exists t,
    clean_loop real_is_zero
      (py_iter (get_default data "messages" (JList []))) (mkTally [] 0 0)
      = Returned t /\
    cs <> 0 /\
    py_len (get_default data "messages" (JList [])) <> Returned 0 /\
    effs = Mkdir dir
           :: map (write_chunk data (cleaned_messages t) cs
                     ((Z.of_nat (List.length (cleaned_messages t)) + cs - 1) / cs))
                  (py_range
                     ((Z.of_nat (List.length (cleaned_messages t)) + cs - 1) / cs)).
Proof.
  unfold split_messages.
  destruct (py_len (get_default data "messages" (JList []))) as [total | e];
    [ | discriminate ].
  destruct (clean_loop real_is_zero _ _) as [t | e]; [ | discriminate ].
  destruct (Z.eqb_spec total 0); [ discriminate | ].
  destruct (Z.eqb_spec cs 0); [ discriminate | ].
  intro H. inversion H. exists t. repeat split; congruence.
Qed.

Lemma written_chunks (data : dict real) (cleaned : list (dict real))
    (cs n : Z) (dir : string) :
  written (Mkdir dir :: map (write_chunk data cleaned cs n) (py_range n))
  = map (fun i =>
           mkChunk (get_default data "name" (JStr "Unknown"))
                   (get_default data "type" (JStr "unknown"))
                   (get_default data "id" JNull)
                   (i + 1) n
                   (Z.of_nat (List.length
                      (py_slice cleaned (i * cs)
                         (Z.min ((i + 1) * cs) (Z.of_nat (List.length cleaned))))))
                   (i * cs + 1)
                   (Z.min ((i + 1) * cs) (Z.of_nat (List.length cleaned)))
                   (py_slice cleaned (i * cs)
                      (Z.min ((i + 1) * cs) (Z.of_nat (List.length cleaned)))))
        (py_range n).
Proof.
  simpl. eapply written_writes. intro i. unfold write_chunk. reflexivity.
Qed.

(** X25.  With a positive chunk size, the chunks written, put end to end, are
    exactly the messages [clean_message] keeps, in the order of the export:
    nothing is lost, duplicated or reordered. *)
Theorem split_messages_partition (data : dict real) (dir : string) (cs : Z)
    (effs : list (effect real)) :
  0 < cs ->
  split_messages real_is_zero (Returned (JDict data)) dir cs = (Returned tt, effs) ->
  concat (map (@messages real) (written effs))
  = flat_map (kept real_is_zero)
      (py_iter (get_default data "messages" (JList []))).
Proof.
  intros Hcs H. apply split_messages_returned in H.
  destruct H as (t & Hloop & _ & _ & ->).
  rewrite written_chunks, map_map. simpl.
  rewrite chunks_cover by exact Hcs.
  apply clean_loop_kept. exact Hloop.
Qed.

(** X26.  Every message in every chunk has a text that is not blank. *)
Theorem split_messages_texts (data : dict real) (dir : string) (cs : Z)
    (effs : list (effect real)) :
  0 < cs ->
  split_messages real_is_zero (Returned (JDict data)) dir cs = (Returned tt, effs) ->
  forall c m, In c (written effs) -> In m (messages c) -> has_text m.
Proof.
  intros Hcs H c m Hc Hm.
  pose proof (split_messages_returned _ _ _ H) as (t & Hloop & _ & _ & E).
  assert (Hin : In m (concat (map (@messages real) (written effs)))).
  { apply in_concat. exists (messages c). split; [ | exact Hm ].
    apply in_map. exact Hc. }
  rewrite E in Hin. rewrite written_chunks, map_map in Hin. simpl in Hin.
  rewrite chunks_cover in Hin by exact Hcs.
  rewrite (clean_loop_kept _ Hloop) in Hin.
  apply in_flat_map in Hin. destruct Hin as (msg & _ & Hk).
  eapply kept_has_text. exact Hk.
Qed.

Lemma py_slice_length A (l : list A) (a b : Z) :
  0 <= a <= b -> b <= Z.of_nat (List.length l) ->
  Z.of_nat (List.length (py_slice l a b)) = b - a.
Proof.
  intros Hab Hb. rewrite py_slice_inside by assumption.
  rewrite length_firstn, length_skipn. lia.
Qed.

Lemma nth_error_py_range (n : Z) (k : nat) (i : Z) :
  nth_error (py_range n) k = Some i -> i = Z.of_nat k /\ Z.of_nat k < n.
Proof.
  unfold py_range. rewrite nth_error_map, nth_error_seq.
  destruct (Nat.ltb_spec k (Z.to_nat n)) as [Hlt | Hge]; simpl; intro E;
    inversion E.
  split; [ reflexivity | lia ].
Qed.

Lemma length_py_range (n : Z) : 0 <= n -> Z.of_nat (List.length (py_range n)) = n.
Proof. intro H. unfold py_range. rewrite length_map, length_seq. lia. Qed.

(** X27.  With a positive chunk size: there are ceil(kept / chunk_size) chunks;
    the chunk at position [k] is numbered [k + 1], says how many chunks
    there are, covers the messages from [k * chunk_size + 1] to
    [min((k + 1) * chunk_size, kept)] counted from one, and its
    [messages_in_chunk] is the length of its message list, which is between
    1 and [chunk_size] and equal to [chunk_size] for every chunk but the
    last. *)
Theorem split_messages_chunk_metadata (data : dict real) (dir : string) (cs : Z)
    (effs : list (effect real)) :
  0 < cs ->
  split_messages real_is_zero (Returned (JDict data)) dir cs = (Returned tt, effs) ->
  let total :=
    Z.of_nat (List.length (concat (map (@messages real) (written effs)))) in
  let n := Z.of_nat (List.length (written effs)) in
  n = (total + cs - 1) / cs /\
  forall k c,
    nth_error (written effs) k = Some c ->
    chunk_number c = Z.of_nat k + 1 /\
    total_chunks c = n /\
    message_range_start c = Z.of_nat k * cs + 1 /\
    message_range_end c = Z.min ((Z.of_nat k + 1) * cs) total /\
    messages_in_chunk c = Z.of_nat (List.length (messages c)) /\
    messages_in_chunk c = message_range_end c - message_range_start c + 1 /\
    1 <= messages_in_chunk c <= cs /\
    (Z.of_nat k + 1 < n -> messages_in_chunk c = cs).
Proof.
  intros Hcs H. apply split_messages_returned in H.
  destruct H as (t & _ & _ & _ & ->).
  set (cleaned := cleaned_messages t).
  rewrite written_chunks. intros total n.
  assert (Etotal : total = Z.of_nat (List.length cleaned)).
  { unfold total. rewrite map_map. simpl.
    rewrite chunks_cover by exact Hcs. reflexivity. }
  destruct (@ceil_div_bounds (Z.of_nat (List.length cleaned)) cs Hcs ltac:(lia))
    as (Hn & Hcover & Hlt).
  assert (En : n = (Z.of_nat (List.length cleaned) + cs - 1) / cs).
  { unfold n. rewrite length_map. apply length_py_range. exact Hn. }
  split; [ now rewrite Etotal | ].
  intros k c Hk. rewrite nth_error_map in Hk.
  destruct (nth_error (py_range _) k) as [i |] eqn:Ei; [ | discriminate ].
  apply nth_error_py_range in Ei. destruct Ei as [-> Hkn].
  simpl in Hk. inversion Hk. subst c. clear Hk. simpl.
  specialize (Hlt (Z.of_nat k) ltac:(lia)).
  rewrite py_slice_length by lia.
  rewrite Etotal, En.
  repeat split; try lia.
  intro Hlast.
  assert ((Z.of_nat k + 1) * cs < Z.of_nat (List.length cleaned)).
  { pose proof (proj2 (proj2 (@ceil_div_bounds (Z.of_nat (List.length cleaned))
                                 cs Hcs ltac:(lia))) (Z.of_nat k + 1)) as Hl.
    apply Hl. lia. }
  lia.
Qed.

(** X28.  How the call can end without writing a chunk: a file that cannot be
    read or parsed is reported and nothing is done; a top-level value that
    is not an object raises AttributeError before anything is done; an
    export without messages raises ZeroDivisionError once the directory
    has been created; and so does a chunk size of zero, whatever the
    messages. *)
Theorem split_messages_edge_cases (dir : string) (cs : Z) :
  (forall e, split_messages real_is_zero (Raised e) dir cs = (Returned tt, [])) /\
  (forall v, (forall d, v <> JDict d) ->
     split_messages real_is_zero (Returned v) dir cs = (Raised PyAttributeError, [])) /\
  (forall data,
     lookup data "messages" = None \/ lookup data "messages" = Some (JList []) ->
     split_messages real_is_zero (Returned (JDict data)) dir cs
       = (Raised PyZeroDivisionError, [Mkdir dir])) /\
  (forall data effs,
     split_messages real_is_zero (Returned (JDict data)) dir 0
       <> (Returned tt, effs)).
Proof.
  repeat split.
  - intros v Hv. destruct v; try reflexivity. exfalso. eapply Hv. reflexivity.
  - intros data [H | H]; unfold split_messages, get_default; rewrite H; reflexivity.
  - intros data effs H. apply split_messages_returned in H.
    destruct H as (t & _ & Hcs & _). congruence.
Qed.

(** *** File names *)

Lemma append_cancel_l (a x y : string) : a ++ x = a ++ y -> x = y.
Proof.
  induction a as [| c a IH]; simpl; intro H; [ exact H | ].
  inversion H. auto.
Qed.

Lemma append_cancel_r (b x y : string) : x ++ b = y ++ b -> x = y.
Proof.
  intro H.
  assert (L : String.length x = String.length y).
  { apply (f_equal String.length) in H. rewrite !length_append in H. lia. }
  rewrite <- (substring_prefix x b), <- (substring_prefix y b).
  now rewrite H, L.
Qed.

Lemma read_digits (d : Decimal.uint) :
  option_map N.of_uint (NilEmpty.uint_of_string (NilZero.string_of_uint d))
  = Some (N.of_uint d).
Proof.
  unfold NilZero.string_of_uint.
  destruct d; [ reflexivity | rewrite NilEmpty.usu; reflexivity .. ].
Qed.

Lemma read_padded (s : string) (v : N) :
  option_map N.of_uint (NilEmpty.uint_of_string s) = Some v ->
  option_map N.of_uint (NilEmpty.uint_of_string (String "0" s)) = Some v.
Proof.
  simpl. destruct (NilEmpty.uint_of_string s) as [u |]; simpl;
    [ intro H; exact H | discriminate ].
Qed.

(** Reading the number back from its zero-padded form. *)
Lemma format_04d_read_back (n : Z) :
  option_map N.of_uint (NilEmpty.uint_of_string (format_04d n)) = Some (Z.to_N n).
Proof.
  unfold format_04d.
  pose proof (read_digits (N.to_uint (Z.to_N n))) as Hd.
  rewrite DecimalN.Unsigned.of_to in Hd.
  induction (4 - String.length
                   (NilZero.string_of_uint (N.to_uint (Z.to_N n))))%nat
    as [| k IH]; simpl; [ exact Hd | ].
  apply read_padded. exact IH.
Qed.

Lemma format_04d_injective (a b : Z) :
  0 <= a -> 0 <= b -> format_04d a = format_04d b -> a = b.
Proof.
  intros Ha Hb H.
  pose proof (format_04d_read_back a) as Ra.
  pose proof (format_04d_read_back b) as Rb.
  rewrite H in Ra. rewrite Ra in Rb. inversion Rb. lia.
Qed.

Lemma file_names_writes (f : Z -> effect real) (g : Z -> chunk_data real)
    (name : Z -> string) (l : list Z) :
  (forall i, f i = WriteJson (name i) (g i)) ->
  file_names (map f l) = map name l.
Proof.
  intro H. induction l as [| i l IH]; simpl; [ reflexivity | ].
  rewrite H. simpl. now rewrite IH.
Qed.

Lemma NoDup_map_on A B (f : A -> B) (l : list A) :
  (forall x y, In x l -> In y l -> f x = f y -> x = y) ->
  NoDup l -> NoDup (map f l).
Proof.
  intros Hinj Hnd. induction Hnd as [| x l Hx Hnd IH]; simpl; constructor.
  - intro Hin. apply in_map_iff in Hin. destruct Hin as (y & Hy & Hyl).
    apply Hx. rewrite (Hinj x y); simpl; auto.
  - apply IH. intros a b Ha Hb. apply Hinj; simpl; auto.
Qed.

(** X29.  The chunk files are named messages_chunk_0001.json,
    messages_chunk_0002.json, ... after the chunk number, and no two chunks
    of a run get the same name: no chunk overwrites another. *)
Theorem split_messages_file_names (data : dict real) (dir : string) (cs : Z)
    (effs : list (effect real)) :
  split_messages real_is_zero (Returned (JDict data)) dir cs = (Returned tt, effs) ->
  file_names effs
    = map (fun c => "messages_chunk_" ++ format_04d (chunk_number c) ++ ".json")
          (written effs) /\
  NoDup (file_names effs).
Proof.
  intro H. apply split_messages_returned in H.
  destruct H as (t & _ & _ & _ & ->).
  set (n := (Z.of_nat (List.length (cleaned_messages t)) + cs - 1) / cs).
  rewrite written_chunks, map_map. simpl.
  rewrite (@file_names_writes _
             (fun i => mkChunk (get_default data "name" (JStr "Unknown"))
                (get_default data "type" (JStr "unknown"))
                (get_default data "id" JNull)
                (i + 1) n
                (Z.of_nat (List.length
                   (py_slice (cleaned_messages t) (i * cs)
                      (Z.min ((i + 1) * cs)
                         (Z.of_nat (List.length (cleaned_messages t)))))))
                (i * cs + 1)
                (Z.min ((i + 1) * cs) (Z.of_nat (List.length (cleaned_messages t))))
                (py_slice (cleaned_messages t) (i * cs)
                   (Z.min ((i + 1) * cs)
                      (Z.of_nat (List.length (cleaned_messages t))))))
             (fun i => "messages_chunk_" ++ format_04d (i + 1) ++ ".json"))
    by (intro i; reflexivity).
  split; [ reflexivity | ].
  apply NoDup_map_on.
  - unfold py_range. intros x y Hx Hy E.
    apply in_map_iff in Hx. destruct Hx as (a & <- & _).
    apply in_map_iff in Hy. destruct Hy as (b & <- & _).
    apply append_cancel_l in E. apply append_cancel_r in E.
    apply format_04d_injective in E; lia.
  - unfold py_range. apply NoDup_map_on; [ | apply seq_NoDup ].
    intros x y _ _ E. lia.
Qed.

End Facts.

End SplitHistoryFacts.

(** A short session: health, a text query, a PDF upload, a PNG upload, a
    batch of one, health again. *)
Example session_statuses :
  map response_status (fst (serve_all Stub2.session Stub.loaded))
    = [200; 200; 400; 200; 500; 200] /\
  request_counter (snd (serve_all Stub2.session Stub.loaded)) = 2.
Proof. split; reflexivity. Qed.

(** ** Concrete runs of the splitter *)

Module SplitRuns.

Import SplitHistory SplitStub.

Lemma clean_message_kept_witness :
  exists c,
    clean_message is_zero hello = Returned (Some c) /\
    has_text c /\
    map fst c = ["from"; "from_id"; "text"; "date"].
Proof.
  eexists. split; [ reflexivity | ].
  destruct (SplitHistoryFacts.clean_message_kept is_zero hello eq_refl)
    as (d & Hd & _ & Ht & Hk & _).
  split; [ exact Ht | ].
  inversion Hd. subst d. exact Hk.
Defined.

Lemma clean_message_idempotent_witness :
  exists c,
    clean_message is_zero joined = Returned (Some c) /\
    clean_message is_zero (JDict c) = Returned (Some c).
Proof.
  eexists. split; [ reflexivity | ].
  apply (SplitHistoryFacts.clean_message_idempotent is_zero joined). reflexivity.
Defined.

Lemma clean_loop_returned_witness :
  exists t,
    clean_loop is_zero [hello; service; joined; blank; hello] (mkTally [] 0 0)
      = Returned t /\
    List.length (cleaned_messages t) = 3%nat /\
    Z.of_nat (List.length (cleaned_messages t)) + skipped_service t + skipped_no_text t
      = 5.
Proof.
  eexists. split; [ reflexivity | ]. split; [ reflexivity | ].
  destruct (SplitHistoryFacts.clean_loop_returned is_zero
              [hello; service; joined; blank; hello] (mkTally [] 0 0) eq_refl)
    as (_ & Hsum).
  exact Hsum.
Defined.

Lemma split_messages_partition_witness :
  exists effs,
    split_messages is_zero (Returned (JDict export)) "chunks" 2 = (Returned tt, effs) /\
    List.length (written effs) = 2%nat /\
    concat (map (@messages Z) (written effs))
      = flat_map (kept is_zero) [hello; service; joined; blank; hello].
Proof.
  eexists. split; [ reflexivity | ]. split; [ reflexivity | ].
  apply (SplitHistoryFacts.split_messages_partition is_zero export "chunks" (cs := 2));
    [ lia | reflexivity ].
Defined.

Lemma split_messages_texts_witness :
  exists effs,
    split_messages is_zero (Returned (JDict export)) "chunks" 2 = (Returned tt, effs) /\
    forall c m, In c (written effs) -> In m (messages c) -> has_text m.
Proof.
  eexists. split; [ reflexivity | ].
  apply (SplitHistoryFacts.split_messages_texts is_zero export "chunks" (cs := 2));
    [ lia | reflexivity ].
Defined.

Lemma split_messages_chunk_metadata_witness :
  exists effs c,
    split_messages is_zero (Returned (JDict export)) "chunks" 2 = (Returned tt, effs) /\
    nth_error (written effs) 1 = Some c /\
    chunk_number c = 2 /\ total_chunks c = 2 /\
    message_range_start c = 3 /\ message_range_end c = 3 /\
    messages_in_chunk c = 1.
Proof.
  do 2 eexists. split; [ reflexivity | ]. split; [ reflexivity | ].
  destruct (SplitHistoryFacts.split_messages_chunk_metadata is_zero export "chunks"
              (cs := 2) ltac:(lia) eq_refl) as (_ & Hk).
  destruct (Hk 1%nat _ eq_refl) as (H1 & H2 & H3 & H4 & _ & H6 & _).
  split; [ exact H1 | ]. split; [ exact H2 | ]. split; [ exact H3 | ].
  split; [ exact H4 | ].
  rewrite H6, H4, H3. reflexivity.
Defined.

Lemma split_messages_edge_cases_witness :
  split_messages is_zero (Returned (JDict empty_export)) "chunks" 500
    = (Raised PyZeroDivisionError, [Mkdir "chunks"]) /\
  split_messages is_zero (Returned (JList [hello])) "chunks" 500
    = (Raised PyAttributeError, []).
Proof.
  destruct (SplitHistoryFacts.split_messages_edge_cases is_zero "chunks" 500)
    as (_ & Hv & He & _).
  split.
  - apply He. right. reflexivity.
  - apply Hv. intros d H. discriminate H.
Defined.

Lemma split_messages_file_names_witness :
  exists effs,
    split_messages is_zero (Returned (JDict export)) "chunks" 2 = (Returned tt, effs) /\
    file_names effs = ["messages_chunk_0001.json"; "messages_chunk_0002.json"] /\
    NoDup (file_names effs).
Proof.
  eexists. split; [ reflexivity | ]. split; [ reflexivity | ].
  apply (SplitHistoryFacts.split_messages_file_names is_zero export "chunks" 2).
  reflexivity.
Defined.

End SplitRuns.
